(** * ztier: a shallow embedding of the tiered compressed-page allocator

    This development embeds [mm/ztier.c] (the pool, its rb-tree free lists,
    allocation, free and the page-reclaim protocol) and proves properties of
    it.

    Modelling conventions.
    - Addresses, [unsigned long] values and [int] codes are [Z].
    - A [struct page] is identified by its page frame number (pfn); its
      address is [pfn * PAGE_SIZE] ([page_address]) and [virt_to_page a] is
      [a >> PAGE_SHIFT].  The [ztier_private] word of every page is the
      function [priv].
    - An rb-tree of [struct ztier_chunk] is the list of the node addresses it
      holds.  A node of a free chunk [handle] lives at
      [chunk_struct handle = handle + SIZE_OF_ZSWPHDR].  The tree operations
      used by ztier ([rb_first], [rb_erase], [ztier_rb_insert]) only
      depend on the set of keys, which is what the list records;
      [ztier_rb_ceil] and [ztier_rb_floor] are taken here as the key they
      are meant to find (the least key [>=], the greatest key [<=]).  Their
      literal descents are modelled on binary search trees in [RbWalk],
      where they can stop at another key.  Properties of single calls are
      proved on the key lists.
    - [RbPool] runs the same pool code on node trees: colours and links as
      [lib/rbtree.c] arranges them, and the literal descents of [RbWalk].
      Runs of several calls, where the shape of a tree decides what a
      descent finds, are evaluated there.
    - Memory is a byte map [mem].  The [memset]s of the code write it; the
      in-chunk [rb_node] words are not stored in [mem]: they are owned by
      the tree and described by the key lists (the code never reads them
      through [mem]: its only reads of chunk contents are the first 32-bit
      word of a chunk, [SIZE_OF_ZSWPHDR] bytes before the node).
    - [BUG()]/[BUG_ON] is the outcome [Bug]; a loop that spins forever
      without changing anything is [Hang].
    - The user eviction callback [ops->evict] is a function from handles to
      return codes; following its documented contract (a successful
      eviction "should return 0 _and_ should have called ztier_free() on
      the handle") a zero return frees the handle.  Every call is logged. *)

From Stdlib Require Import ZArith List Lia Bool.
Import ListNotations.
Open Scope Z_scope.

(** ** Constants *)

Definition PAGE_SHIFT : Z := 12.
Definition PAGE_SIZE : Z := 4096.
Definition PAGE_MASK : Z := Z.lnot (PAGE_SIZE - 1).

Definition NUM_TIERS : Z := 3.

(** [TIER_SIZES[t]]; an index outside the array is an out-of-bounds read,
    modelled as [None]. *)
Definition TIER_SIZES (t : Z) : option Z :=
  if t =? 0 then Some 2048
  else if t =? 1 then Some 1024
  else if t =? 2 then Some 256
  else None.

Definition RECLAIM_FLAG : Z := Z.shiftl 1 63.
(** [GENMASK(62, 0)] *)
Definition TIER_MASK : Z := Z.ones 63.

(** [sizeof(swp_entry_t)] on a 64-bit kernel. *)
Definition SIZE_OF_ZSWPHDR : Z := 8.

Definition chunk_struct (chunk : Z) : Z := chunk + SIZE_OF_ZSWPHDR.
Definition struct_chunk (str : Z) : Z := str - SIZE_OF_ZSWPHDR.

(** [___GFP_HIGHMEM] *)
Definition GFP_HIGHMEM : Z := 2.

Definition EINVAL : Z := 22.
Definition ENOSPC : Z := 28.
Definition ENOMEM : Z := 12.
Definition EAGAIN : Z := 11.

(** The value a page's [ztier_private] holds while the page is not a pool
    page ([ztier_init_page] asserts it; reclaim and destroy restore it). *)
Definition DEADBEEF : Z := 3735928559.

Definition page_address (pfn : Z) : Z := pfn * PAGE_SIZE.
Definition virt_to_page (a : Z) : Z := Z.shiftr a PAGE_SHIFT.

(** ** State *)

Record ztier_ops := mk_ops { evict : option (Z -> Z) }.

Inductive event :=
| EvEvict (handle : Z)      (** a call of [pool->ops->evict(pool, handle)] *)
| EvPageFree (pfn : Z).     (** a call of [__free_page(page)] *)

Record state := mk_state {
  (* struct ztier_pool *)
  free_lists : Z -> list Z;       (** [free_lists[tier]] *)
  used_pages : Z -> list Z;       (** [used_pages[tier]], head first *)
  under_reclaim : list Z;
  size : Z;
  ops : option ztier_ops;
  (* the machine *)
  priv : Z -> Z;                  (** [page->ztier_private], by pfn *)
  mem : Z -> Z;                   (** bytes *)
  log : list event
}.

Definition upd {A} (f : Z -> A) (i : Z) (v : A) : Z -> A :=
  fun j => if j =? i then v else f j.

Definition set_free_lists (t : Z) (l : list Z) (s : state) : state :=
  mk_state (upd (free_lists s) t l) (used_pages s) (under_reclaim s) (size s)
    (ops s) (priv s) (mem s) (log s).
Definition set_used_pages (t : Z) (l : list Z) (s : state) : state :=
  mk_state (free_lists s) (upd (used_pages s) t l) (under_reclaim s) (size s)
    (ops s) (priv s) (mem s) (log s).
Definition set_under_reclaim (l : list Z) (s : state) : state :=
  mk_state (free_lists s) (used_pages s) l (size s)
    (ops s) (priv s) (mem s) (log s).
Definition set_size (n : Z) (s : state) : state :=
  mk_state (free_lists s) (used_pages s) (under_reclaim s) n
    (ops s) (priv s) (mem s) (log s).
Definition set_priv (pfn v : Z) (s : state) : state :=
  mk_state (free_lists s) (used_pages s) (under_reclaim s) (size s)
    (ops s) (upd (priv s) pfn v) (mem s) (log s).
Definition set_mem (m : Z -> Z) (s : state) : state :=
  mk_state (free_lists s) (used_pages s) (under_reclaim s) (size s)
    (ops s) (priv s) m (log s).
Definition add_log (e : event) (s : state) : state :=
  mk_state (free_lists s) (used_pages s) (under_reclaim s) (size s)
    (ops s) (priv s) (mem s) (log s ++ [e]).

(** ** Outcomes and the state/error monad *)

Inductive outcome (A : Type) :=
| Ok (a : A)
| Bug
| Hang.
Arguments Ok {A} a.
Arguments Bug {A}.
Arguments Hang {A}.

Definition M (A : Type) := state -> outcome (A * state).

Definition ret {A} (a : A) : M A := fun s => Ok (a, s).
Definition bind {A B} (m : M A) (k : A -> M B) : M B :=
  fun s => match m s with
           | Ok (a, s') => k a s'
           | Bug => Bug
           | Hang => Hang
           end.
Definition get : M state := fun s => Ok (s, s).
Definition modify (f : state -> state) : M unit := fun s => Ok (tt, f s).
Definition bug {A} : M A := fun _ => Bug.
Definition BUG_ON (b : bool) : M unit := if b then bug else ret tt.
Definition lift {A} (o : outcome A) : M A :=
  fun s => match o with Ok a => Ok (a, s) | Bug => Bug | Hang => Hang end.

Declare Scope ztier_scope.
Delimit Scope ztier_scope with zt.
Notation "x <- m ;; k" := (bind m (fun x => k))
  (at level 61, m at next level, right associativity) : ztier_scope.
Notation "m ;;; k" := (bind m (fun _ => k))
  (at level 61, right associativity) : ztier_scope.
Open Scope ztier_scope.

(** ** Memory *)

Definition memset (m : Z -> Z) (a v n : Z) : Z -> Z :=
  fun x => if (a <=? x) && (x <? a + n) then v else m x.

(** [*(unsigned int * )a], little endian. *)
Definition read_u32 (m : Z -> Z) (a : Z) : Z :=
  m a + 256 * m (a + 1) + 65536 * m (a + 2) + 16777216 * m (a + 3).

Definition fill_ok (m : Z -> Z) (a : Z) : bool :=
  (read_u32 m a =? 2863311530) || (read_u32 m a =? 3435973836).
  (* 0xAAAAAAAA, 0xCCCCCCCC *)

(** ** The rb-trees, by their keys *)

Fixpoint min_elt (l : list Z) : option Z :=
  match l with
  | [] => None
  | x :: r => match min_elt r with
              | Some y => Some (Z.min x y)
              | None => Some x
              end
  end.

Fixpoint max_elt (l : list Z) : option Z :=
  match l with
  | [] => None
  | x :: r => match max_elt r with
              | Some y => Some (Z.max x y)
              | None => Some x
              end
  end.

(** [rb_first] *)
Definition rb_first (t : list Z) : option Z := min_elt t.

(** [ztier_rb_ceil]: the least element [>= chunk]. *)
Definition ztier_rb_ceil (t : list Z) (chunk : Z) : option Z :=
  min_elt (filter (fun y => chunk <=? y) t).

(** [ztier_rb_floor]: the greatest element [<= chunk]. *)
Definition ztier_rb_floor (t : list Z) (chunk : Z) : option Z :=
  max_elt (filter (fun y => y <=? chunk) t).

(** [ztier_rb_contains]: [rb_entry] of a NULL floor is the NULL pointer. *)
Definition ztier_rb_contains (t : list Z) (chunk : Z) : bool :=
  match ztier_rb_floor t chunk with
  | Some f => f =? chunk
  | None => chunk =? 0
  end.

Definition rb_erase (k : Z) (t : list Z) : list Z :=
  filter (fun y => negb (y =? k)) t.

Fixpoint insert_sorted (k : Z) (t : list Z) : list Z :=
  match t with
  | [] => [k]
  | x :: r => if k <? x then k :: t else x :: insert_sorted k r
  end.

(** [ztier_rb_insert]: the sanity checks, then the search, which hits
    [BUG_ON(chunk == new_chunk)] exactly when the key is already there. *)
Definition ztier_rb_insert (m : Z -> Z) (t : list Z) (new_chunk : Z)
  : outcome (list Z) :=
  if new_chunk <? 4096 then Bug
  else if negb (fill_ok m (struct_chunk new_chunk)) then Bug
  else if existsb (Z.eqb new_chunk) t then Bug
  else Ok (insert_sorted new_chunk t).

(** [ztier_rb_move_range(from, to, start, after)]; [to = None] is NULL.
    Each round re-seeks [ztier_rb_ceil(from, start)]; every round removes
    one node, so [length from + 1] rounds are enough. *)
Fixpoint move_range_loop (m : Z -> Z) (fuel : nat) (from : list Z)
    (to : option (list Z)) (start after : Z)
  : outcome (list Z * option (list Z)) :=
  match fuel with
  | O => Ok (from, to)
  | S fuel' =>
      match ztier_rb_ceil from start with
      | None => Ok (from, to)
      | Some chunk =>
          if after <=? chunk then Ok (from, to)
          else
            let from' := rb_erase chunk from in
            match to with
            | None => move_range_loop m fuel' from' None start after
            | Some t =>
                match ztier_rb_insert m t chunk with
                | Ok t' => move_range_loop m fuel' from' (Some t') start after
                | Bug => Bug
                | Hang => Hang
                end
            end
      end
  end.

Definition ztier_rb_move_range (m : Z -> Z) (from : list Z)
    (to : option (list Z)) (start after : Z)
  : outcome (list Z * option (list Z)) :=
  move_range_loop m (S (length from)) from to start after.

(** ** Tree and list operations on the pool, in the monad *)

Definition tier_size (t : Z) : Z :=
  match TIER_SIZES t with Some n => n | None => 0 end.

(** The values of [i] in [for (i = 0; i < PAGE_SIZE; i += ts)], for a
    [ts] dividing [PAGE_SIZE] (every [TIER_SIZES] entry does). *)
Definition chunk_offsets (ts : Z) : list Z :=
  map (fun j => Z.of_nat j * ts) (seq 0 (Z.to_nat (PAGE_SIZE / ts))).

Definition insert_free (tier chunk : Z) : M unit :=
  s <- get ;;
  t' <- lift (ztier_rb_insert (mem s) (free_lists s tier) chunk) ;;
  modify (set_free_lists tier t').

Definition insert_reclaim (chunk : Z) : M unit :=
  s <- get ;;
  t' <- lift (ztier_rb_insert (mem s) (under_reclaim s) chunk) ;;
  modify (set_under_reclaim t').

(** [ztier_rb_move_range(&pool->free_lists[tier], &pool->under_reclaim, ..)] *)
Definition move_free_to_reclaim (tier start after : Z) : M unit :=
  s <- get ;;
  r <- lift (ztier_rb_move_range (mem s) (free_lists s tier)
               (Some (under_reclaim s)) start after) ;;
  match r with
  | (from', Some to') =>
      modify (set_free_lists tier from') ;;; modify (set_under_reclaim to')
  | (_, None) => bug
  end.

(** [ztier_rb_move_range(&pool->under_reclaim, &pool->free_lists[tier], ..)] *)
Definition move_reclaim_to_free (tier start after : Z) : M unit :=
  s <- get ;;
  r <- lift (ztier_rb_move_range (mem s) (under_reclaim s)
               (Some (free_lists s tier)) start after) ;;
  match r with
  | (from', Some to') =>
      modify (set_under_reclaim from') ;;; modify (set_free_lists tier to')
  | (_, None) => bug
  end.

(** [ztier_rb_move_range(&pool->under_reclaim, NULL, ..)] *)
Definition discard_reclaim (start after : Z) : M unit :=
  s <- get ;;
  r <- lift (ztier_rb_move_range (mem s) (under_reclaim s) None start after) ;;
  modify (set_under_reclaim (fst r)).

(** [ztier_rb_move_range(&pool->free_lists[tier], NULL, ..)] *)
Definition discard_free (tier start after : Z) : M unit :=
  s <- get ;;
  r <- lift (ztier_rb_move_range (mem s) (free_lists s tier) None start after) ;;
  modify (set_free_lists tier (fst r)).

(** [list_del(&page->ztier_lru)] on the list the page is linked in. *)
Definition list_del (pfn : Z) (l : list Z) : list Z :=
  filter (fun p => negb (p =? pfn)) l.

(** [list_rotate_left(head)]: the first entry moves to the tail. *)
Definition list_rotate_left (l : list Z) : list Z :=
  match l with
  | [] => []
  | x :: r => r ++ [x]
  end.

Definition fill (a v n : Z) : M unit :=
  modify (fun s => set_mem (memset (mem s) a v n) s).

Fixpoint for_each (l : list Z) (body : Z -> M unit) : M unit :=
  match l with
  | [] => ret tt
  | i :: r => body i ;;; for_each r body
  end.

(** ** Pool creation, page carving, teardown *)

(** [ztier_create_pool] (when [kzalloc] succeeds). *)
Definition ztier_create_pool (o : option ztier_ops) (pv m : Z -> Z)
    (lg : list event) : state :=
  mk_state (fun _ => []) (fun _ => []) [] 0 o pv m lg.

(** [ztier_init_page] *)
Definition ztier_init_page (pfn tier : Z) : M unit :=
  let raw_page := page_address pfn in
  BUG_ON (raw_page =? 0) ;;;
  BUG_ON (NUM_TIERS <=? tier) ;;;
  s <- get ;;
  BUG_ON (negb (priv s pfn =? DEADBEEF)) ;;;
  modify (set_priv pfn tier) ;;;
  modify (fun s => set_used_pages tier (pfn :: used_pages s tier) s) ;;;
  fill raw_page 204 PAGE_SIZE ;;;      (* 0xCC *)
  for_each (chunk_offsets (tier_size tier))
    (fun i => insert_free tier (chunk_struct (raw_page + i))).

(** [ztier_all_tiers_empty] *)
Definition ztier_all_tiers_empty (s : state) : bool :=
  match used_pages s 0, used_pages s 1, used_pages s 2 with
  | [], [], [] => true
  | _, _, _ => false
  end.

(** The [while (!list_empty(&pool->used_pages[i]))] loop of
    [ztier_free_all]; every round unlinks the first page. *)
Fixpoint free_tier_pages (fuel : nat) (i : Z) : M unit :=
  match fuel with
  | O => ret tt
  | S fuel' =>
      s <- get ;;
      match used_pages s i with
      | [] => ret tt
      | pfn :: _ =>
          let page_start := page_address pfn in
          let page_end := page_start + PAGE_SIZE in
          BUG_ON (page_start =? 0) ;;;
          discard_free i page_start page_end ;;;
          modify (fun s => set_used_pages i (list_del pfn (used_pages s i)) s) ;;;
          modify (set_priv pfn DEADBEEF) ;;;
          modify (add_log (EvPageFree pfn)) ;;;
          s <- get ;;
          BUG_ON (size s <? PAGE_SIZE) ;;;
          modify (set_size (size s - PAGE_SIZE)) ;;;
          free_tier_pages fuel' i
      end
  end.

(** [ztier_free_all] *)
Definition ztier_free_all : M unit :=
  for_each [0; 1; 2]
    (fun i => s <- get ;; free_tier_pages (S (length (used_pages s i))) i).

(** [ztier_destroy_pool] ([kfree(pool)] ends the pool; the state returned
    is the machine after teardown). *)
Definition ztier_destroy_pool : M unit :=
  s <- get ;;
  BUG_ON (match rb_first (under_reclaim s) with Some _ => true | None => false end) ;;;
  ztier_free_all.

(** ** Allocation *)

(** [for (tier = NUM_TIERS - 1; tier >= 0; tier--) if (size <= TIER_SIZES[tier]) break;] *)
Fixpoint choose_tier_loop (fuel : nat) (tier sz : Z) : option Z :=
  match fuel with
  | O => None
  | S fuel' =>
      if tier <? 0 then None
      else if sz <=? tier_size tier then Some tier
      else choose_tier_loop fuel' (tier - 1) sz
  end.

Definition choose_tier (sz : Z) : option Z :=
  choose_tier_loop (Z.to_nat NUM_TIERS) (NUM_TIERS - 1) sz.

(** [rb_erase(free, tree)] and the handle [struct_chunk(free)]. *)
Definition alloc_take (tier chunk : Z) : M Z :=
  modify (fun s => set_free_lists tier (rb_erase chunk (free_lists s tier)) s) ;;;
  ret (struct_chunk chunk).

(** The slow path once [alloc_page] returned [pfn] and the lock is retaken. *)
Definition alloc_grow (tier pfn : Z) : M Z :=
  ztier_init_page pfn tier ;;;
  modify (fun s => set_size (size s + PAGE_SIZE) s) ;;;
  s <- get ;;
  match rb_first (free_lists s tier) with
  | None => bug
  | Some chunk => alloc_take tier chunk
  end.

(** [ztier_alloc]: [inl handle] on success, [inr (-errno)] otherwise.
    [page] is what [alloc_page(gfp)] returns when it is called. *)
Definition ztier_alloc (sz gfp : Z) (page : option Z) : M (Z + Z) :=
  if (sz =? 0) || negb (Z.land gfp GFP_HIGHMEM =? 0) then ret (inr (- EINVAL))
  else if tier_size 0 <? sz then ret (inr (- ENOSPC))
  else
    match choose_tier sz with
    | None => bug
    | Some tier =>
        s <- get ;;
        match rb_first (free_lists s tier) with
        | Some chunk =>
            h <- alloc_take tier chunk ;;
            fill h 187 (tier_size tier) ;;;     (* 0xBB *)
            ret (inl h)
        | None =>
            match page with
            | None => ret (inr (- ENOMEM))
            | Some pfn =>
                h <- alloc_grow tier pfn ;;
                fill h 187 (tier_size tier) ;;;
                ret (inl h)
            end
        end
    end.

(** ** Free *)

(** [ztier_free] *)
Definition ztier_free (handle : Z) : M unit :=
  let pfn := virt_to_page (Z.land handle PAGE_MASK) in
  let chunk := chunk_struct handle in
  BUG_ON (handle =? 0) ;;;
  s <- get ;;
  let tier := Z.land (priv s pfn) TIER_MASK in
  let is_reclaim := Z.testbit (priv s pfn) 63 in
  match TIER_SIZES tier with
  | None => bug
  | Some ts =>
      BUG_ON (negb (handle mod ts =? 0)) ;;;
      BUG_ON (NUM_TIERS <=? tier) ;;;
      fill handle 170 ts ;;;            (* 0xAA *)
      if is_reclaim then insert_reclaim chunk else insert_free tier chunk
  end.

(** ** Reclaim *)

(** [ztier_reclaim_select_page]: returns the chosen page (NULL is [None])
    and the new [*current_tier], [*current_page].  A chosen page with the
    RECLAIM_FLAG set makes the loop [continue] with nothing changed. *)
Definition ztier_reclaim_select_page (current_tier : Z)
    (current_page : option Z) : M (option Z * Z * option Z) :=
  if current_tier <? NUM_TIERS then
    s <- get ;;
    match rev (used_pages s current_tier) with
    | [] =>
        (* the tier is empty: move to the next tier *)
        ret (None, current_tier + 1, current_page)
    | chosen :: _ =>
        if Z.testbit (priv s chosen) 63 then (fun _ => Hang)
        else if match current_page with
                | Some p => p =? chosen
                | None => false
                end
        then ret (None, current_tier + 1, current_page)
        else
          modify (set_used_pages current_tier
                    (list_rotate_left (used_pages s current_tier))) ;;;
          ret (Some chosen, current_tier, Some chosen)
    end
  else ret (None, current_tier, current_page).

(** [ztier_page_chunks_under_reclaim] *)
Definition ztier_page_chunks_under_reclaim (pfn : Z) : M unit :=
  s <- get ;;
  let tier := Z.land (priv s pfn) TIER_MASK in
  let vaddr := page_address pfn in
  BUG_ON (NUM_TIERS <=? tier) ;;;
  BUG_ON (vaddr =? 0) ;;;
  BUG_ON (negb (Z.testbit (priv s pfn) 63)) ;;;
  move_free_to_reclaim tier vaddr (vaddr + PAGE_SIZE).

(** [ztier_page_chunks_from_under_reclaim] *)
Definition ztier_page_chunks_from_under_reclaim (pfn : Z) : M unit :=
  s <- get ;;
  let tier := Z.land (priv s pfn) TIER_MASK in
  let vaddr := page_address pfn in
  BUG_ON (NUM_TIERS <=? tier) ;;;
  BUG_ON (vaddr =? 0) ;;;
  BUG_ON (Z.testbit (priv s pfn) 63) ;;;
  move_reclaim_to_free tier vaddr (vaddr + PAGE_SIZE).

(** [pool->ops->evict(pool, handle)] under the callback contract. *)
Definition call_evict (handle : Z) : M Z :=
  s <- get ;;
  match ops s with
  | Some (mk_ops (Some f)) =>
      modify (add_log (EvEvict handle)) ;;;
      let r := f handle in
      if r =? 0 then ztier_free handle ;;; ret 0 else ret r
  | _ => bug
  end.

(** The chunk loop of [ztier_attempt_evict_page_chunks]. *)
Fixpoint evict_chunks (vaddr ts : Z) (offs : list Z) : M unit :=
  match offs with
  | [] => ret tt
  | i :: offs' =>
      let handle := vaddr + i in
      s <- get ;;
      if negb (ztier_rb_contains (under_reclaim s) (chunk_struct handle)) then
        BUG_ON (negb (handle mod ts =? 0)) ;;;
        r <- call_evict handle ;;
        if negb (r =? 0) then ret tt
        else evict_chunks vaddr ts offs'
      else
        BUG_ON (negb (fill_ok (mem s) handle)) ;;;
        evict_chunks vaddr ts offs'
  end.

(** [ztier_attempt_evict_page_chunks] *)
Definition ztier_attempt_evict_page_chunks (pfn : Z) : M unit :=
  s <- get ;;
  let tier := Z.land (priv s pfn) TIER_MASK in
  let vaddr := page_address pfn in
  BUG_ON (vaddr =? 0) ;;;
  BUG_ON (NUM_TIERS <=? tier) ;;;
  BUG_ON (negb (Z.testbit (priv s pfn) 63)) ;;;
  evict_chunks vaddr (tier_size tier) (chunk_offsets (tier_size tier)).

(** The check loop of [ztier_page_chunks_reclaimed]. *)
Fixpoint all_chunks_reclaimed (vaddr : Z) (offs : list Z) : M bool :=
  match offs with
  | [] => ret true
  | i :: offs' =>
      s <- get ;;
      if negb (ztier_rb_contains (under_reclaim s) (chunk_struct (vaddr + i)))
      then ret false
      else
        BUG_ON (negb (fill_ok (mem s) (vaddr + i))) ;;;
        all_chunks_reclaimed vaddr offs'
  end.

(** [ztier_page_chunks_reclaimed].  The page has been unlinked by
    [list_del], so its poisoned list pointers pass the [BUG_ON]s. *)
Definition ztier_page_chunks_reclaimed (pfn : Z) : M bool :=
  s <- get ;;
  let tier := Z.land (priv s pfn) TIER_MASK in
  let vaddr := page_address pfn in
  BUG_ON (NUM_TIERS <=? tier) ;;;
  BUG_ON (vaddr =? 0) ;;;
  BUG_ON (negb (Z.testbit (priv s pfn) 63)) ;;;
  all <- all_chunks_reclaimed vaddr (chunk_offsets (tier_size tier)) ;;
  if negb all then ret false
  else
    discard_reclaim (chunk_struct vaddr) (chunk_struct (vaddr + PAGE_SIZE)) ;;;
    fill vaddr 221 PAGE_SIZE ;;;             (* 0xDD *)
    modify (set_priv pfn DEADBEEF) ;;;
    modify (add_log (EvPageFree pfn)) ;;;
    s <- get ;;
    BUG_ON (size s <? PAGE_SIZE) ;;;
    modify (set_size (size s - PAGE_SIZE)) ;;;
    ret true.

(** Lines 1173-1191 of [ztier_reclaim_page]: sanity checks, set the
    RECLAIM_FLAG, record [reclaim_tier], unlink the page and quarantine its
    free chunks.  Returns [reclaim_tier]. *)
Definition reclaim_quarantine (pfn current_tier : Z) : M Z :=
  s <- get ;;
  BUG_ON (Z.testbit (priv s pfn) 63) ;;;
  BUG_ON (NUM_TIERS <=? Z.land (priv s pfn) TIER_MASK) ;;;
  BUG_ON (NUM_TIERS <=? current_tier) ;;;
  let pv := Z.lor (priv s pfn) RECLAIM_FLAG in
  modify (set_priv pfn pv) ;;;
  let reclaim_tier := Z.land pv TIER_MASK in
  modify (fun s => set_used_pages current_tier
                     (list_del pfn (used_pages s current_tier)) s) ;;;
  ztier_page_chunks_under_reclaim pfn ;;;
  ret reclaim_tier.

(** Lines 1205-1217 of [ztier_reclaim_page]: free the page if it is fully
    drained ([true]), otherwise reverse the quarantine ([false]). *)
Definition reclaim_settle (pfn reclaim_tier current_tier : Z) : M bool :=
  done <- ztier_page_chunks_reclaimed pfn ;;
  if done then ret true
  else
    BUG_ON (negb (reclaim_tier =? current_tier)) ;;;
    modify (fun s => set_used_pages reclaim_tier
                       (pfn :: used_pages s reclaim_tier) s) ;;;
    modify (fun s => set_priv pfn (Z.land (priv s pfn) (Z.lnot RECLAIM_FLAG)) s) ;;;
    ztier_page_chunks_from_under_reclaim pfn ;;;
    ret false.

(** The [while (retries-- > 0)] loop of [ztier_reclaim_page]. *)
Fixpoint reclaim_loop (retries : nat) (current_tier : Z)
    (current_page : option Z) : M Z :=
  match retries with
  | O => ret (- EAGAIN)
  | S retries' =>
      BUG_ON (NUM_TIERS <=? current_tier) ;;;
      sel <- ztier_reclaim_select_page current_tier current_page ;;
      match sel with
      | (None, _, _) => ret (- EAGAIN)
      | (Some pfn, ct, cp) =>
          reclaim_tier <- reclaim_quarantine pfn ct ;;
          ztier_attempt_evict_page_chunks pfn ;;;
          done <- reclaim_settle pfn reclaim_tier ct ;;
          if done then ret 0 else reclaim_loop retries' ct cp
      end
  end.

Definition no_evict (o : option ztier_ops) : bool :=
  match o with
  | Some (mk_ops (Some _)) => false
  | _ => true
  end.

(** [ztier_reclaim_page]; [retries] is an [unsigned int]. *)
Definition ztier_reclaim_page (retries : Z) : M Z :=
  s <- get ;;
  if no_evict (ops s) || ztier_all_tiers_empty s || (retries =? 0)
  then ret (- EINVAL)
  else reclaim_loop (Z.to_nat retries) 0 None.

(** [ztier_get_pool_size] *)
Definition ztier_get_pool_size (s : state) : Z := size s.

(** ** The zpool shrink hook *)

(** The [while (total < pages)] loop of [ztier_zpool_shrink]; [r] is the
    last [ret].  [total] grows by one per round, so [pages] rounds are
    enough. *)
Fixpoint shrink_loop (fuel : nat) (pages total r : Z) : M (Z * Z) :=
  match fuel with
  | O => ret (r, total)
  | S fuel' =>
      if total <? pages then
        r' <- ztier_reclaim_page 8 ;;
        if r' <? 0 then ret (r', total)
        else shrink_loop fuel' pages (total + 1) r'
      else ret (r, total)
  end.

(** [ztier_zpool_shrink(pool, pages, reclaimed)]: returns [ret] and the
    value stored in [*reclaimed]; [pages] is an [unsigned int]. *)
Definition ztier_zpool_shrink (pages : Z) : M (Z * Z) :=
  shrink_loop (Z.to_nat pages) pages 0 (- EINVAL).

(** Kinds of logged events. *)
Definition is_evict (e : event) : bool :=
  match e with EvEvict _ => true | EvPageFree _ => false end.

Definition page_frees (l : list event) : Z :=
  Z.of_nat (length (filter (fun e => negb (is_evict e)) l)).

(** ** Concrete pools

    Pools built by running the code from [ztier_create_pool], used to
    exercise the theorems on concrete inputs.  Pages that are not pool
    pages carry [DEADBEEF] in [ztier_private]; page frames 5 and 6 are the
    ones [alloc_page] hands out. *)

Definition boot_state (o : option ztier_ops) : state :=
  ztier_create_pool o (fun _ => DEADBEEF) (fun _ => 0) [].

(** The state an operation ends in ([d] when it does not return). *)
Definition out_state {A} (o : outcome (A * state)) (d : state) : state :=
  match o with Ok (_, s) => s | _ => d end.

(** An evict callback that always fails, one that always succeeds. *)
Definition evict_fail : Z -> Z := fun _ => 1.
Definition evict_succeed : Z -> Z := fun _ => 0.

(** One 2KB page (frame 5) whose chunk 20480 is allocated and whose chunk
    20480 + 2048 is free. *)
Definition pool_one_live (f : Z -> Z) : state :=
  let s0 := boot_state (Some (mk_ops (Some f))) in
  out_state (ztier_alloc 2048 0 (Some 5) s0) s0.

(** The same page with both chunks freed again. *)
Definition pool_one_free (f : Z -> Z) : state :=
  let s1 := pool_one_live f in
  let s2 := out_state (ztier_alloc 2048 0 None s1) s1 in
  let s3 := out_state (ztier_free 20480 s2) s2 in
  out_state (ztier_free 22528 s3) s3.

(** Two 256B pages (frames 5 and 6) carved by seventeen 200-byte
    allocations, all of them freed again. *)
Fixpoint alloc_200 (n : nat) : M (list Z) :=
  match n with
  | O => ret []
  | S n' =>
      hs <- alloc_200 n' ;;
      r <- ztier_alloc 200 0 (Some (if (length hs <? 16)%nat then 5 else 6)) ;;
      match r with
      | inl h => ret (h :: hs)
      | inr _ => bug
      end
  end.

Definition pool_two_small_free (f : Z -> Z) : state :=
  let s0 := boot_state (Some (mk_ops (Some f))) in
  out_state ((hs <- alloc_200 17 ;; for_each hs ztier_free) s0) s0.

(** ** Chunk ranges *)

Definition in_range (start after y : Z) : Prop := start <= y < after.

Definition move_target_spec (from : list Z) (start after : Z)
    (to to' : option (list Z)) : Prop :=
  match to, to' with
  | Some t, Some t' =>
      forall y, In y t' <-> In y t \/ (In y from /\ in_range start after y)
  | None, None => True
  | _, _ => False
  end.

(** ** The tree descents of [ztier_rb_ceil] and [ztier_rb_floor]

    The [while (node)] loops of the two helpers, on the nodes of an
    rb-tree (colours play no part in a descent).  Each round looks at the
    current node and possibly at one of its children, then returns or moves
    to a child, so the loop is a recursion on the subtree. *)

Module RbWalk.

Inductive tree :=
| Leaf
| Node (l : tree) (k : Z) (r : tree).

(** In-order keys ([rb_first], then [rb_next]). *)
Fixpoint elements (t : tree) : list Z :=
  match t with
  | Leaf => []
  | Node l k r => elements l ++ k :: elements r
  end.

(** The search-tree order that [ztier_rb_insert] maintains (it sends keys
    [< chunk] left and [> chunk] right, and BUGs on equal keys). *)
Fixpoint is_bst (t : tree) : bool :=
  match t with
  | Leaf => true
  | Node l k r =>
      is_bst l && is_bst r &&
      forallb (fun x => x <? k) (elements l) &&
      forallb (fun x => k <? x) (elements r)
  end.

Definition key (t : tree) : option Z :=
  match t with Leaf => None | Node _ k _ => Some k end.

(** [ztier_rb_ceil] *)
Fixpoint ztier_rb_ceil (t : tree) (chunk : Z) : option Z :=
  match t with
  | Leaf => None
  | Node l found r =>
      if found <? chunk then ztier_rb_ceil r chunk
      else if found =? chunk then Some found
      else
        match key l with
        | None => Some found
        | Some lk => if lk <? chunk then Some found else ztier_rb_ceil l chunk
        end
  end.

(** [ztier_rb_floor] *)
Fixpoint ztier_rb_floor (t : tree) (chunk : Z) : option Z :=
  match t with
  | Leaf => None
  | Node l found r =>
      if chunk <? found then ztier_rb_floor l chunk
      else if found =? chunk then Some found
      else
        match key r with
        | None => Some found
        | Some rk => if chunk <? rk then Some found else ztier_rb_floor r chunk
        end
  end.

(** [ztier_rb_contains]: [rb_entry] of a NULL floor is the NULL pointer. *)
Definition ztier_rb_contains (t : tree) (chunk : Z) : bool :=
  match ztier_rb_floor t chunk with
  | Some f => f =? chunk
  | None => chunk =? 0
  end.

(** The search loop of [ztier_rb_insert] and its [rb_link_node]: keys
    [< chunk] go left, others right after [BUG_ON(chunk == new_chunk)];
    the new node becomes the leaf where the descent ends.  The checks on
    corrupted links have nothing to find in a [tree], and the rebalancing
    of [rb_insert_color] is not part of this model. *)
Fixpoint ztier_rb_insert_link (t : tree) (new_chunk : Z) : outcome tree :=
  match t with
  | Leaf => Ok (Node Leaf new_chunk Leaf)
  | Node l chunk r =>
      if new_chunk <? chunk then
        match ztier_rb_insert_link l new_chunk with
        | Ok l' => Ok (Node l' chunk r)
        | Bug => Bug
        | Hang => Hang
        end
      else if chunk =? new_chunk then Bug
      else
        match ztier_rb_insert_link r new_chunk with
        | Ok r' => Ok (Node l chunk r')
        | Bug => Bug
        | Hang => Hang
        end
  end.

(** [ztier_rb_move_range(from, to, start, after)] over the descent.
    [rb_erase] and the final [rb_link_node]/[rb_insert_color] of
    [ztier_rb_insert] are kernel library code: they are parameters.  Each
    round re-seeks the ceiling of [start]; [fuel] bounds the rounds. *)
Section MoveRange.
Variable tree_erase : Z -> tree -> tree.
Variable tree_insert : tree -> Z -> outcome tree.

Fixpoint ztier_rb_move_range (fuel : nat) (from : tree) (to : option tree)
    (start after : Z) : outcome (tree * option tree) :=
  match fuel with
  | O => Ok (from, to)
  | S fuel' =>
      match ztier_rb_ceil from start with
      | None => Ok (from, to)
      | Some chunk =>
          if after <=? chunk then Ok (from, to)
          else
            let from' := tree_erase chunk from in
            match to with
            | None => ztier_rb_move_range fuel' from' None start after
            | Some t =>
                match tree_insert t chunk with
                | Ok t' => ztier_rb_move_range fuel' from' (Some t') start after
                | Bug => Bug
                | Hang => Hang
                end
            end
      end
  end.
End MoveRange.

(** The tree that the kernel's rb-tree insertion builds from the keys
    10, 3, 15, 7 (in that order): 10 at the root, 3 and 15 below it, 7 the
    right child of 3. *)
Definition t_10_3_15_7 : tree :=
  Node (Node Leaf 3 (Node Leaf 7 Leaf)) 10 (Node Leaf 15 Leaf).

(** The tree built from the keys 3, 1, 10, 7, 15: 3 at the root, 1 and 10
    below it, 7 and 15 the children of 10. *)
Definition t_3_1_10_7_15 : tree :=
  Node (Node Leaf 1 Leaf) 3 (Node (Node Leaf 7 Leaf) 10 (Node Leaf 15 Leaf)).

End RbWalk.

(** ** The pool over node trees

    [RbPool] runs the code above with every rb-tree held as its nodes, with
    their colours and links as the kernel's rb-tree library arranges them.
    [ztier_rb_ceil], [ztier_rb_floor] and [ztier_rb_contains] are the
    descents of [RbWalk] on the links; [rb_first] is the leftmost node;
    [rb_insert_color] and [rb_erase] follow [__rb_insert],
    [__rb_erase_augmented] and [____rb_erase_color] of [lib/rbtree.c], with
    the path from a node up to the root (a zipper) standing for the parent
    pointers.  The pool functions are those above with these trees in
    place of the key lists. *)
Module RbPool.

Inductive color := Red | Black.

Inductive rbt :=
| E
| T (c : color) (l : rbt) (k : Z) (r : rbt).

(** The links, without the colours. *)
Fixpoint shape (t : rbt) : RbWalk.tree :=
  match t with
  | E => RbWalk.Leaf
  | T _ l k r => RbWalk.Node (shape l) k (shape r)
  end.

(** In-order keys. *)
Definition elements (t : rbt) : list Z := RbWalk.elements (shape t).

(** [rb_is_red] *)
Definition is_red (t : rbt) : bool :=
  match t with T Red _ _ _ => true | _ => false end.

(** Painting a (non-NULL) node black. *)
Definition blacken (t : rbt) : rbt :=
  match t with E => E | T _ l k r => T Black l k r end.

(** Where a node hangs: below the node [T c _ k r] on its left, or below
    [T c l k _] on its right.  A path lists the frames from the node's
    parent up to the root. *)
Inductive frame :=
| Lft (c : color) (k : Z) (r : rbt)
| Rgt (c : color) (l : rbt) (k : Z).

Definition plug1 (t : rbt) (f : frame) : rbt :=
  match f with
  | Lft c k r => T c t k r
  | Rgt c l k => T c l k t
  end.

Definition plug (t : rbt) (path : list frame) : rbt := fold_left plug1 path t.

Definition frame_red (f : frame) : bool :=
  match f with Lft Red _ _ | Rgt Red _ _ => true | _ => false end.

(** [rb_first]: the leftmost node. *)
Fixpoint rb_first (t : rbt) : option Z :=
  match t with
  | E => None
  | T _ l k _ => match rb_first l with None => Some k | Some x => Some x end
  end.

Definition ztier_rb_ceil (t : rbt) (chunk : Z) : option Z :=
  RbWalk.ztier_rb_ceil (shape t) chunk.

Definition ztier_rb_floor (t : rbt) (chunk : Z) : option Z :=
  RbWalk.ztier_rb_floor (shape t) chunk.

Definition ztier_rb_contains (t : rbt) (chunk : Z) : bool :=
  RbWalk.ztier_rb_contains (shape t) chunk.

(** The search loop of [ztier_rb_insert]: the path to the NULL link where
    the new node goes ([BUG_ON(chunk == new_chunk)] on the way). *)
Fixpoint insert_search (t : rbt) (new_chunk : Z) (path : list frame)
  : outcome (list frame) :=
  match t with
  | E => Ok path
  | T c l chunk r =>
      if new_chunk <? chunk then insert_search l new_chunk (Lft c chunk r :: path)
      else if chunk =? new_chunk then Bug
      else insert_search r new_chunk (Rgt c l chunk :: path)
  end.

(** [rb_insert_color] ([__rb_insert]) for the red [node] at [path]: case 1
    recolours and goes up two levels; cases 2 and 3 rotate and stop. *)
Fixpoint rb_insert_color (node : rbt) (path : list frame) : rbt :=
  match path with
  | [] => blacken node
  | parent :: up =>
      if negb (frame_red parent) then plug node path
      else
        match parent, up with
        | Lft _ pk pr, Lft gc gk gr :: up' =>
            if is_red gr then
              rb_insert_color (T Red (T Black node pk pr) gk (blacken gr)) up'
            else plug (T gc node pk (T Red pr gk gr)) up'
        | Rgt _ pl pk, Lft gc gk gr :: up' =>
            if is_red gr then
              rb_insert_color (T Red (T Black pl pk node) gk (blacken gr)) up'
            else
              match node with
              | T _ nl nk nr =>
                  plug (T gc (T Red pl pk (blacken nl)) nk (T Red nr gk gr)) up'
              | E => plug node path
              end
        | Rgt _ pl pk, Rgt gc gl gk :: up' =>
            if is_red gl then
              rb_insert_color (T Red (blacken gl) gk (T Black pl pk node)) up'
            else plug (T gc (T Red gl gk pl) pk node) up'
        | Lft _ pk pr, Rgt gc gl gk :: up' =>
            if is_red gl then
              rb_insert_color (T Red (blacken gl) gk (T Black node pk pr)) up'
            else
              match node with
              | T _ nl nk nr =>
                  plug (T gc (T Red gl gk nl) nk (T Red (blacken nr) pk pr)) up'
              | E => plug node path
              end
        | _, [] => plug node path
        end
  end.

(** [ztier_rb_insert]: the checks, the search, [rb_link_node] (a red
    leaf) and [rb_insert_color]. *)
Definition ztier_rb_insert (m : Z -> Z) (t : rbt) (new_chunk : Z) : outcome rbt :=
  if new_chunk <? 4096 then Bug
  else if negb (fill_ok m (struct_chunk new_chunk)) then Bug
  else
    match insert_search t new_chunk [] with
    | Ok path => Ok (rb_insert_color (T Red E new_chunk E) path)
    | Bug => Bug
    | Hang => Hang
    end.

(** The node holding key [k], with its path. *)
Fixpoint find_node (t : rbt) (k : Z) (path : list frame) : option (rbt * list frame) :=
  match t with
  | E => None
  | T c l x r =>
      if k <? x then find_node l k (Lft c x r :: path)
      else if x <? k then find_node r k (Rgt c l x :: path)
      else Some (t, path)
  end.

(** The leftmost node under [t]: its colour, key, right child and path. *)
Fixpoint leftmost (t : rbt) (path : list frame) : option (color * Z * rbt * list frame) :=
  match t with
  | E => None
  | T c l k r =>
      match l with
      | E => Some (c, k, r, path)
      | _ => leftmost l (Lft c k r :: path)
      end
  end.

(** [____rb_erase_color]: [node] (NULL on the first round) is one black
    short.  Case 1 rotates a red sibling up; case 2 recolours the sibling
    and, below a black parent, goes up one level; cases 3 and 4 rotate and
    stop.  Every round that goes on is one level higher, so
    [length path + 1] rounds are enough. *)
Fixpoint rb_erase_color (fuel : nat) (node : rbt) (path : list frame) : rbt :=
  match fuel, path with
  | O, _ => plug node path
  | _, [] => node
  | S fuel', Lft pc pk sibling :: up =>
      let '(pc, sibling, up) :=
        match sibling with
        | T Red sl sk sr => (Red, blacken sl, Lft pc sk sr :: up)
        | _ => (pc, sibling, up)
        end in
      match sibling with
      | E => plug node (Lft pc pk sibling :: up)
      | T _ sl sk sr =>
          if negb (is_red sr) then
            if negb (is_red sl) then
              match pc with
              | Red => plug (T Black node pk (T Red sl sk sr)) up
              | Black => rb_erase_color fuel' (T Black node pk (T Red sl sk sr)) up
              end
            else
              match sl with
              | T _ tl tk tr =>
                  plug (T pc (T Black node pk tl) tk (T Black (blacken tr) sk sr)) up
              | E => plug node (Lft pc pk sibling :: up)
              end
          else plug (T pc (T Black node pk sl) sk (blacken sr)) up
      end
  | S fuel', Rgt pc sibling pk :: up =>
      let '(pc, sibling, up) :=
        match sibling with
        | T Red sl sk sr => (Red, blacken sr, Rgt pc sl sk :: up)
        | _ => (pc, sibling, up)
        end in
      match sibling with
      | E => plug node (Rgt pc sibling pk :: up)
      | T _ sl sk sr =>
          if negb (is_red sl) then
            if negb (is_red sr) then
              match pc with
              | Red => plug (T Black (T Red sl sk sr) pk node) up
              | Black => rb_erase_color fuel' (T Black (T Red sl sk sr) pk node) up
              end
            else
              match sr with
              | T _ tl tk tr =>
                  plug (T pc (T Black sl sk (blacken tl)) tk (T Black tr pk node)) up
              | E => plug node (Rgt pc sibling pk :: up)
              end
          else plug (T pc (blacken sl) sk (T Black sr pk node)) up
      end
  end.

(** The rebalancing that follows unlinking a black node without children. *)
Definition erase_rebalance (c : color) (path : list frame) : rbt :=
  match c with
  | Black => rb_erase_color (S (length path)) E path
  | Red => plug E path
  end.

(** [__rb_erase_augmented] and the rebalancing it asks for.  With at most
    one child, the child takes the node's place and colour (case 1); with
    two, the successor does (case 2: it is the right child; case 3: it is
    the leftmost node of the right subtree, whose right child takes its
    old place), and the successor's child, if any, turns black. *)
Definition rb_erase_node (node : rbt) (path : list frame) : rbt :=
  match node with
  | E => plug E path
  | T c l k r =>
      match l, r with
      | E, T _ rl rk rr => plug (T c rl rk rr) path
      | E, E => erase_rebalance c path
      | T _ ll lk lr, E => plug (T c ll lk lr) path
      | T _ _ _ _, T rc rl rk rr =>
          match rl with
          | E =>
              match rr with
              | T _ a b d => plug (T c l rk (T Black a b d)) path
              | E => erase_rebalance rc (Rgt c l rk :: path)
              end
          | T _ _ _ _ =>
              match leftmost rl [Lft rc rk rr] with
              | Some (sc, sk, child2, inner) =>
                  match child2 with
                  | T _ a b d => plug (T Black a b d) (inner ++ Rgt c l sk :: path)
                  | E => erase_rebalance sc (inner ++ Rgt c l sk :: path)
                  end
              | None => plug node path
              end
          end
      end
  end.

(** [rb_erase] of the node holding [k]. *)
Definition rb_erase (k : Z) (t : rbt) : rbt :=
  match find_node t k [] with
  | Some (node, path) => rb_erase_node node path
  | None => t
  end.

(** [ztier_rb_move_range]: every round re-seeks the ceiling of [start] and
    erases the node it finds, so [size + 1] rounds are enough. *)
Fixpoint move_range_loop (m : Z -> Z) (fuel : nat) (from : rbt)
    (to : option rbt) (start after : Z) : outcome (rbt * option rbt) :=
  match fuel with
  | O => Ok (from, to)
  | S fuel' =>
      match ztier_rb_ceil from start with
      | None => Ok (from, to)
      | Some chunk =>
          if after <=? chunk then Ok (from, to)
          else
            let from' := rb_erase chunk from in
            match to with
            | None => move_range_loop m fuel' from' None start after
            | Some t =>
                match ztier_rb_insert m t chunk with
                | Ok t' => move_range_loop m fuel' from' (Some t') start after
                | Bug => Bug
                | Hang => Hang
                end
            end
      end
  end.

Definition ztier_rb_move_range (m : Z -> Z) (from : rbt) (to : option rbt)
    (start after : Z) : outcome (rbt * option rbt) :=
  move_range_loop m (S (length (elements from))) from to start after.

(** *** State and monad *)

Record state := mk_state {
  free_lists : Z -> rbt;
  used_pages : Z -> list Z;
  under_reclaim : rbt;
  size : Z;
  ops : option ztier_ops;
  priv : Z -> Z;
  mem : Z -> Z;
  log : list event
}.

Definition set_free_lists (t : Z) (l : rbt) (s : state) : state :=
  mk_state (upd (free_lists s) t l) (used_pages s) (under_reclaim s) (size s)
    (ops s) (priv s) (mem s) (log s).
Definition set_used_pages (t : Z) (l : list Z) (s : state) : state :=
  mk_state (free_lists s) (upd (used_pages s) t l) (under_reclaim s) (size s)
    (ops s) (priv s) (mem s) (log s).
Definition set_under_reclaim (l : rbt) (s : state) : state :=
  mk_state (free_lists s) (used_pages s) l (size s)
    (ops s) (priv s) (mem s) (log s).
Definition set_size (n : Z) (s : state) : state :=
  mk_state (free_lists s) (used_pages s) (under_reclaim s) n
    (ops s) (priv s) (mem s) (log s).
Definition set_priv (pfn v : Z) (s : state) : state :=
  mk_state (free_lists s) (used_pages s) (under_reclaim s) (size s)
    (ops s) (upd (priv s) pfn v) (mem s) (log s).
Definition set_mem (m : Z -> Z) (s : state) : state :=
  mk_state (free_lists s) (used_pages s) (under_reclaim s) (size s)
    (ops s) (priv s) m (log s).
Definition add_log (e : event) (s : state) : state :=
  mk_state (free_lists s) (used_pages s) (under_reclaim s) (size s)
    (ops s) (priv s) (mem s) (log s ++ [e]).

Definition M (A : Type) := state -> outcome (A * state).

Definition ret {A} (a : A) : M A := fun s => Ok (a, s).
Definition bind {A B} (m : M A) (k : A -> M B) : M B :=
  fun s => match m s with
           | Ok (a, s') => k a s'
           | Bug => Bug
           | Hang => Hang
           end.
Definition get : M state := fun s => Ok (s, s).
Definition modify (f : state -> state) : M unit := fun s => Ok (tt, f s).
Definition bug {A} : M A := fun _ => Bug.
Definition BUG_ON (b : bool) : M unit := if b then bug else ret tt.
Definition lift {A} (o : outcome A) : M A :=
  fun s => match o with Ok a => Ok (a, s) | Bug => Bug | Hang => Hang end.

Declare Scope rbpool_scope.
Notation "x <- m ;; k" := (bind m (fun x => k))
  (at level 61, m at next level, right associativity) : rbpool_scope.
Notation "m ;;; k" := (bind m (fun _ => k))
  (at level 61, right associativity) : rbpool_scope.
Open Scope rbpool_scope.

(** *** The pool functions *)

Definition insert_free (tier chunk : Z) : M unit :=
  s <- get ;;
  t' <- lift (ztier_rb_insert (mem s) (free_lists s tier) chunk) ;;
  modify (set_free_lists tier t').

Definition insert_reclaim (chunk : Z) : M unit :=
  s <- get ;;
  t' <- lift (ztier_rb_insert (mem s) (under_reclaim s) chunk) ;;
  modify (set_under_reclaim t').

Definition move_free_to_reclaim (tier start after : Z) : M unit :=
  s <- get ;;
  r <- lift (ztier_rb_move_range (mem s) (free_lists s tier)
               (Some (under_reclaim s)) start after) ;;
  match r with
  | (from', Some to') =>
      modify (set_free_lists tier from') ;;; modify (set_under_reclaim to')
  | (_, None) => bug
  end.

Definition move_reclaim_to_free (tier start after : Z) : M unit :=
  s <- get ;;
  r <- lift (ztier_rb_move_range (mem s) (under_reclaim s)
               (Some (free_lists s tier)) start after) ;;
  match r with
  | (from', Some to') =>
      modify (set_under_reclaim from') ;;; modify (set_free_lists tier to')
  | (_, None) => bug
  end.

Definition discard_reclaim (start after : Z) : M unit :=
  s <- get ;;
  r <- lift (ztier_rb_move_range (mem s) (under_reclaim s) None start after) ;;
  modify (set_under_reclaim (fst r)).

Definition fill (a v n : Z) : M unit :=
  modify (fun s => set_mem (memset (mem s) a v n) s).

Fixpoint for_each (l : list Z) (body : Z -> M unit) : M unit :=
  match l with
  | [] => ret tt
  | i :: r => body i ;;; for_each r body
  end.

Definition ztier_create_pool (o : option ztier_ops) (pv m : Z -> Z)
    (lg : list event) : state :=
  mk_state (fun _ => E) (fun _ => []) E 0 o pv m lg.

Definition ztier_init_page (pfn tier : Z) : M unit :=
  let raw_page := page_address pfn in
  BUG_ON (raw_page =? 0) ;;;
  BUG_ON (NUM_TIERS <=? tier) ;;;
  s <- get ;;
  BUG_ON (negb (priv s pfn =? DEADBEEF)) ;;;
  modify (set_priv pfn tier) ;;;
  modify (fun s => set_used_pages tier (pfn :: used_pages s tier) s) ;;;
  fill raw_page 204 PAGE_SIZE ;;;
  for_each (chunk_offsets (tier_size tier))
    (fun i => insert_free tier (chunk_struct (raw_page + i))).

Definition ztier_all_tiers_empty (s : state) : bool :=
  match used_pages s 0, used_pages s 1, used_pages s 2 with
  | [], [], [] => true
  | _, _, _ => false
  end.

Definition alloc_take (tier chunk : Z) : M Z :=
  modify (fun s => set_free_lists tier (rb_erase chunk (free_lists s tier)) s) ;;;
  ret (struct_chunk chunk).

Definition alloc_grow (tier pfn : Z) : M Z :=
  ztier_init_page pfn tier ;;;
  modify (fun s => set_size (size s + PAGE_SIZE) s) ;;;
  s <- get ;;
  match rb_first (free_lists s tier) with
  | None => bug
  | Some chunk => alloc_take tier chunk
  end.

Definition ztier_alloc (sz gfp : Z) (page : option Z) : M (Z + Z) :=
  if (sz =? 0) || negb (Z.land gfp GFP_HIGHMEM =? 0) then ret (inr (- EINVAL))
  else if tier_size 0 <? sz then ret (inr (- ENOSPC))
  else
    match choose_tier sz with
    | None => bug
    | Some tier =>
        s <- get ;;
        match rb_first (free_lists s tier) with
        | Some chunk =>
            h <- alloc_take tier chunk ;;
            fill h 187 (tier_size tier) ;;;
            ret (inl h)
        | None =>
            match page with
            | None => ret (inr (- ENOMEM))
            | Some pfn =>
                h <- alloc_grow tier pfn ;;
                fill h 187 (tier_size tier) ;;;
                ret (inl h)
            end
        end
    end.

Definition ztier_free (handle : Z) : M unit :=
  let pfn := virt_to_page (Z.land handle PAGE_MASK) in
  let chunk := chunk_struct handle in
  BUG_ON (handle =? 0) ;;;
  s <- get ;;
  let tier := Z.land (priv s pfn) TIER_MASK in
  let is_reclaim := Z.testbit (priv s pfn) 63 in
  match TIER_SIZES tier with
  | None => bug
  | Some ts =>
      BUG_ON (negb (handle mod ts =? 0)) ;;;
      BUG_ON (NUM_TIERS <=? tier) ;;;
      fill handle 170 ts ;;;
      if is_reclaim then insert_reclaim chunk else insert_free tier chunk
  end.

Definition ztier_reclaim_select_page (current_tier : Z)
    (current_page : option Z) : M (option Z * Z * option Z) :=
  if current_tier <? NUM_TIERS then
    s <- get ;;
    match rev (used_pages s current_tier) with
    | [] => ret (None, current_tier + 1, current_page)
    | chosen :: _ =>
        if Z.testbit (priv s chosen) 63 then (fun _ => Hang)
        else if match current_page with
                | Some p => p =? chosen
                | None => false
                end
        then ret (None, current_tier + 1, current_page)
        else
          modify (set_used_pages current_tier
                    (list_rotate_left (used_pages s current_tier))) ;;;
          ret (Some chosen, current_tier, Some chosen)
    end
  else ret (None, current_tier, current_page).

Definition ztier_page_chunks_under_reclaim (pfn : Z) : M unit :=
  s <- get ;;
  let tier := Z.land (priv s pfn) TIER_MASK in
  let vaddr := page_address pfn in
  BUG_ON (NUM_TIERS <=? tier) ;;;
  BUG_ON (vaddr =? 0) ;;;
  BUG_ON (negb (Z.testbit (priv s pfn) 63)) ;;;
  move_free_to_reclaim tier vaddr (vaddr + PAGE_SIZE).

Definition ztier_page_chunks_from_under_reclaim (pfn : Z) : M unit :=
  s <- get ;;
  let tier := Z.land (priv s pfn) TIER_MASK in
  let vaddr := page_address pfn in
  BUG_ON (NUM_TIERS <=? tier) ;;;
  BUG_ON (vaddr =? 0) ;;;
  BUG_ON (Z.testbit (priv s pfn) 63) ;;;
  move_reclaim_to_free tier vaddr (vaddr + PAGE_SIZE).

Definition call_evict (handle : Z) : M Z :=
  s <- get ;;
  match ops s with
  | Some (mk_ops (Some f)) =>
      modify (add_log (EvEvict handle)) ;;;
      let r := f handle in
      if r =? 0 then ztier_free handle ;;; ret 0 else ret r
  | _ => bug
  end.

Fixpoint evict_chunks (vaddr ts : Z) (offs : list Z) : M unit :=
  match offs with
  | [] => ret tt
  | i :: offs' =>
      let handle := vaddr + i in
      s <- get ;;
      if negb (ztier_rb_contains (under_reclaim s) (chunk_struct handle)) then
        BUG_ON (negb (handle mod ts =? 0)) ;;;
        r <- call_evict handle ;;
        if negb (r =? 0) then ret tt
        else evict_chunks vaddr ts offs'
      else
        BUG_ON (negb (fill_ok (mem s) handle)) ;;;
        evict_chunks vaddr ts offs'
  end.

Definition ztier_attempt_evict_page_chunks (pfn : Z) : M unit :=
  s <- get ;;
  let tier := Z.land (priv s pfn) TIER_MASK in
  let vaddr := page_address pfn in
  BUG_ON (vaddr =? 0) ;;;
  BUG_ON (NUM_TIERS <=? tier) ;;;
  BUG_ON (negb (Z.testbit (priv s pfn) 63)) ;;;
  evict_chunks vaddr (tier_size tier) (chunk_offsets (tier_size tier)).

Fixpoint all_chunks_reclaimed (vaddr : Z) (offs : list Z) : M bool :=
  match offs with
  | [] => ret true
  | i :: offs' =>
      s <- get ;;
      if negb (ztier_rb_contains (under_reclaim s) (chunk_struct (vaddr + i)))
      then ret false
      else
        BUG_ON (negb (fill_ok (mem s) (vaddr + i))) ;;;
        all_chunks_reclaimed vaddr offs'
  end.

Definition ztier_page_chunks_reclaimed (pfn : Z) : M bool :=
  s <- get ;;
  let tier := Z.land (priv s pfn) TIER_MASK in
  let vaddr := page_address pfn in
  BUG_ON (NUM_TIERS <=? tier) ;;;
  BUG_ON (vaddr =? 0) ;;;
  BUG_ON (negb (Z.testbit (priv s pfn) 63)) ;;;
  all <- all_chunks_reclaimed vaddr (chunk_offsets (tier_size tier)) ;;
  if negb all then ret false
  else
    discard_reclaim (chunk_struct vaddr) (chunk_struct (vaddr + PAGE_SIZE)) ;;;
    fill vaddr 221 PAGE_SIZE ;;;
    modify (set_priv pfn DEADBEEF) ;;;
    modify (add_log (EvPageFree pfn)) ;;;
    s <- get ;;
    BUG_ON (size s <? PAGE_SIZE) ;;;
    modify (set_size (size s - PAGE_SIZE)) ;;;
    ret true.

Definition reclaim_quarantine (pfn current_tier : Z) : M Z :=
  s <- get ;;
  BUG_ON (Z.testbit (priv s pfn) 63) ;;;
  BUG_ON (NUM_TIERS <=? Z.land (priv s pfn) TIER_MASK) ;;;
  BUG_ON (NUM_TIERS <=? current_tier) ;;;
  let pv := Z.lor (priv s pfn) RECLAIM_FLAG in
  modify (set_priv pfn pv) ;;;
  let reclaim_tier := Z.land pv TIER_MASK in
  modify (fun s => set_used_pages current_tier
                     (list_del pfn (used_pages s current_tier)) s) ;;;
  ztier_page_chunks_under_reclaim pfn ;;;
  ret reclaim_tier.

Definition reclaim_settle (pfn reclaim_tier current_tier : Z) : M bool :=
  done <- ztier_page_chunks_reclaimed pfn ;;
  if done then ret true
  else
    BUG_ON (negb (reclaim_tier =? current_tier)) ;;;
    modify (fun s => set_used_pages reclaim_tier
                       (pfn :: used_pages s reclaim_tier) s) ;;;
    modify (fun s => set_priv pfn (Z.land (priv s pfn) (Z.lnot RECLAIM_FLAG)) s) ;;;
    ztier_page_chunks_from_under_reclaim pfn ;;;
    ret false.

Fixpoint reclaim_loop (retries : nat) (current_tier : Z)
    (current_page : option Z) : M Z :=
  match retries with
  | O => ret (- EAGAIN)
  | S retries' =>
      BUG_ON (NUM_TIERS <=? current_tier) ;;;
      sel <- ztier_reclaim_select_page current_tier current_page ;;
      match sel with
      | (None, _, _) => ret (- EAGAIN)
      | (Some pfn, ct, cp) =>
          reclaim_tier <- reclaim_quarantine pfn ct ;;
          ztier_attempt_evict_page_chunks pfn ;;;
          done <- reclaim_settle pfn reclaim_tier ct ;;
          if done then ret 0 else reclaim_loop retries' ct cp
      end
  end.

Definition ztier_reclaim_page (retries : Z) : M Z :=
  s <- get ;;
  if no_evict (ops s) || ztier_all_tiers_empty s || (retries =? 0)
  then ret (- EINVAL)
  else reclaim_loop (Z.to_nat retries) 0 None.

(** *** Runs

    A run is a sequence of whole calls and of the parts of a
    [ztier_reclaim_page] call that hold the pool lock: the selection of the
    victim (lines 1158-1171), its quarantine (1173-1192), the evictions
    (1196, the lock dropped around each callback) and the final settling
    (1198-1217).  Other calls run between these parts. *)
Inductive op :=
| Alloc (sz gfp : Z) (page : option Z)  (** [page]: what [alloc_page] returns *)
| Free (handle : Z)
| Reclaim (retries : Z)
| Select (current_tier : Z) (current_page : option Z)
| Quarantine (pfn current_tier : Z)
| Evict (pfn : Z)
| Settle (pfn reclaim_tier current_tier : Z).

Definition run_op (o : op) : M unit :=
  match o with
  | Alloc sz gfp pg => ztier_alloc sz gfp pg ;;; ret tt
  | Free h => ztier_free h
  | Reclaim n => ztier_reclaim_page n ;;; ret tt
  | Select ct cp => ztier_reclaim_select_page ct cp ;;; ret tt
  | Quarantine pfn ct => reclaim_quarantine pfn ct ;;; ret tt
  | Evict pfn => ztier_attempt_evict_page_chunks pfn
  | Settle pfn rt ct => reclaim_settle pfn rt ct ;;; ret tt
  end.

Fixpoint run (l : list op) : M unit :=
  match l with
  | [] => ret tt
  | o :: l' => run_op o ;;; run l'
  end.

(** A pool with evict callback [f]; [alloc_page] hands out the frames the
    runs name, and every other page carries [DEADBEEF]. *)
Definition boot (f : Z -> Z) : state :=
  ztier_create_pool (Some (mk_ops (Some f))) (fun _ => DEADBEEF) (fun _ => 0) [].

(** Six 2KB allocations, two on each of the frames 6, 5 and 7 (handles
    24576, 26624, 20480, 22528, 28672, 30720), then four frees.  The free
    tree of tier 0 ends up with 28680 at the root, 20488 and 30728 below
    it, and 24584 the right child of 20488. *)
Definition six_chunks_four_freed : list op :=
  [Alloc 2048 0 (Some 6); Alloc 2048 0 None; Alloc 2048 0 (Some 5);
   Alloc 2048 0 None; Alloc 2048 0 (Some 7); Alloc 2048 0 None;
   Free 28672; Free 20480; Free 30720; Free 24576].

(** An evict callback that fails on the handle [h0] and evicts (and
    frees) every other handle. *)
Definition evict_except (h0 : Z) : Z -> Z := fun h => if h =? h0 then 1 else 0.

(** Three tier-0 pages, frames 7, 6 and 5 (allocated in that order), with
    the chunks 24576 and 20480 free again.  A first [ztier_reclaim_page]
    takes frame 7 and evicts both its chunks into [under_reclaim]; it is
    then between its evictions and its final settling.  A second one takes
    frame 5 and quarantines its free chunk; it is then about to evict. *)
Definition two_reclaims_in_flight : list op :=
  [Alloc 2048 0 (Some 7); Alloc 2048 0 None; Alloc 2048 0 (Some 6);
   Alloc 2048 0 None; Alloc 2048 0 (Some 5); Alloc 2048 0 None;
   Free 24576; Free 20480;
   Select 0 None; Quarantine 7 0; Evict 7;
   Select 0 None; Quarantine 5 0].

End RbPool.

(** * Proofs *)

(** ** The monad *)

Lemma bind_ok {A B} (m : M A) (k : A -> M B) s b s' :
  bind m k s = Ok (b, s') ->
  exists a s1, m s = Ok (a, s1) /\ k a s1 = Ok (b, s').
Proof.
  unfold bind. destruct (m s) as [[a s1]| |]; intros H; [eauto|discriminate|discriminate].
Qed.

Lemma bind_ok_eq {A B} (m : M A) (k : A -> M B) s a s1 :
  m s = Ok (a, s1) -> bind m k s = k a s1.
Proof. intros H. unfold bind. rewrite H. reflexivity. Qed.

Lemma bind_bug {A B} (m : M A) (k : A -> M B) s :
  m s = Bug -> bind m k s = Bug.
Proof. intros H. unfold bind. rewrite H. reflexivity. Qed.

Lemma BUG_ON_ok b s u s' : BUG_ON b s = Ok (u, s') -> b = false /\ s' = s.
Proof. destruct b; cbn; [discriminate|]. intros H; inversion H; auto. Qed.

Lemma lift_ok {A} (o : outcome A) s a s' :
  lift o s = Ok (a, s') -> o = Ok a /\ s' = s.
Proof. destruct o; cbn; intros H; inversion H; auto. Qed.

(** Peel one [bind] off a hypothesis [H : bind m k s = Ok _]. *)
Ltac peel H :=
  let a := fresh "a" in let s1 := fresh "s" in
  let Hm := fresh "Hm" in
  apply bind_ok in H; destruct H as (a & s1 & Hm & H).

(** ** Bits of [ztier_private] and addresses *)

Lemma page_of_addr a : virt_to_page (Z.land a PAGE_MASK) = a / PAGE_SIZE.
Proof.
  unfold virt_to_page, PAGE_MASK, PAGE_SHIFT, PAGE_SIZE.
  change (4096 - 1) with (Z.ones 12).
  rewrite <- Z.ldiff_land, Z.ldiff_ones_r by lia.
  rewrite Z.shiftl_mul_pow2, !Z.shiftr_div_pow2 by lia.
  rewrite Z.div_mul by (cbn; lia). reflexivity.
Qed.

Lemma flag_bit n : 0 <= n -> Z.testbit RECLAIM_FLAG n = (63 =? n).
Proof. intros Hn. unfold RECLAIM_FLAG. rewrite Z.shiftl_1_l, Z.pow2_bits_eqb; lia. Qed.

Lemma mask_bit n : 0 <= n -> Z.testbit TIER_MASK n = (n <? 63).
Proof.
  intros Hn. unfold TIER_MASK. rewrite Z.testbit_ones by lia.
  destruct (Z.leb_spec 0 n); [reflexivity|lia].
Qed.

Lemma flag_set_bit p : Z.testbit (Z.lor p RECLAIM_FLAG) 63 = true.
Proof. rewrite Z.lor_spec, flag_bit by lia. apply orb_true_r. Qed.

Lemma flag_set_tier p :
  Z.land (Z.lor p RECLAIM_FLAG) TIER_MASK = Z.land p TIER_MASK.
Proof.
  apply Z.bits_inj'; intros n Hn.
  rewrite !Z.land_spec, Z.lor_spec, flag_bit, mask_bit by lia.
  destruct (Z.eqb_spec 63 n) as [<-|Hne].
  - cbn. rewrite !andb_false_r. reflexivity.
  - rewrite orb_false_r. reflexivity.
Qed.

Lemma flag_clear_bit p : Z.testbit (Z.land p (Z.lnot RECLAIM_FLAG)) 63 = false.
Proof. rewrite Z.land_spec, Z.lnot_spec, flag_bit by lia. apply andb_false_r. Qed.

Lemma flag_clear_tier p :
  Z.land (Z.land p (Z.lnot RECLAIM_FLAG)) TIER_MASK = Z.land p TIER_MASK.
Proof.
  apply Z.bits_inj'; intros n Hn.
  rewrite !Z.land_spec, Z.lnot_spec, flag_bit, mask_bit by lia.
  destruct (Z.eqb_spec 63 n) as [<-|Hne].
  - cbn. rewrite !andb_false_r. reflexivity.
  - cbn. rewrite andb_true_r. reflexivity.
Qed.

Lemma mask_nonneg : 0 <= TIER_MASK.
Proof. change TIER_MASK with 9223372036854775807. lia. Qed.

Lemma small_tier c : 0 <= c < NUM_TIERS ->
  Z.land c TIER_MASK = c /\ Z.testbit c 63 = false.
Proof.
  unfold NUM_TIERS; intros Hc.
  assert (c = 0 \/ c = 1 \/ c = 2) as [->|[->| ->]] by lia; split; reflexivity.
Qed.

Lemma deadbeef_bits :
  Z.land DEADBEEF TIER_MASK = DEADBEEF /\ Z.testbit DEADBEEF 63 = false.
Proof. split; reflexivity. Qed.

(** ** The rb-trees as key sets *)

Lemma min_elt_spec l x :
  min_elt l = Some x -> In x l /\ forall y, In y l -> x <= y.
Proof.
  revert x; induction l as [|z r IH]; cbn; intros x H; [discriminate|].
  destruct (min_elt r) as [y|] eqn:E; inversion H; subst; clear H.
  - destruct (IH y eq_refl) as [Hy Hmin].
    split.
    + destruct (Z.min_spec z y) as [[_ ->]|[_ ->]]; auto.
    + intros w [<-|Hw]; [lia|]. specialize (Hmin w Hw). lia.
  - split; [auto|]. intros w [<-|Hw]; [lia|].
    destruct r; [destruct Hw|]. cbn in E.
    destruct (min_elt r); discriminate.
Qed.

Lemma min_elt_none l : min_elt l = None -> l = [].
Proof.
  destruct l as [|z r]; cbn; [auto|]. destruct (min_elt r); discriminate.
Qed.

Lemma max_elt_spec l x :
  max_elt l = Some x -> In x l /\ forall y, In y l -> y <= x.
Proof.
  revert x; induction l as [|z r IH]; cbn; intros x H; [discriminate|].
  destruct (max_elt r) as [y|] eqn:E; inversion H; subst; clear H.
  - destruct (IH y eq_refl) as [Hy Hmax].
    split.
    + destruct (Z.max_spec z y) as [[_ ->]|[_ ->]]; auto.
    + intros w [<-|Hw]; [lia|]. specialize (Hmax w Hw). lia.
  - split; [auto|]. intros w [<-|Hw]; [lia|].
    destruct r; [destruct Hw|]. cbn in E.
    destruct (max_elt r); discriminate.
Qed.

Lemma max_elt_none l : max_elt l = None -> l = [].
Proof.
  destruct l as [|z r]; cbn; [auto|]. destruct (max_elt r); discriminate.
Qed.

Lemma contains_spec t x : x <> 0 -> ztier_rb_contains t x = true <-> In x t.
Proof.
  intros Hx. unfold ztier_rb_contains, ztier_rb_floor.
  destruct (max_elt _) as [f|] eqn:E.
  - apply max_elt_spec in E as [Hf Hmax].
    apply filter_In in Hf as [Hf Hle]. apply Z.leb_le in Hle.
    rewrite Z.eqb_eq. split.
    + intros ->; auto.
    + intros Hin. assert (In x (filter (fun y => y <=? x) t)) as Hx'
        by (apply filter_In; split; [auto|apply Z.leb_le; lia]).
      specialize (Hmax x Hx'). lia.
  - apply max_elt_none in E. rewrite Z.eqb_eq. split; [lia|].
    intros Hin. assert (In x (filter (fun y => y <=? x) t)) as Hx'
      by (apply filter_In; split; [auto|apply Z.leb_le; lia]).
    rewrite E in Hx'. destruct Hx'.
Qed.

Lemma erase_spec k t y : In y (rb_erase k t) <-> In y t /\ y <> k.
Proof.
  unfold rb_erase. rewrite filter_In, negb_true_iff, Z.eqb_neq. tauto.
Qed.

Lemma erase_length k t : In k t -> (length (rb_erase k t) < length t)%nat.
Proof.
  unfold rb_erase. induction t as [|x r IH]; cbn; intros H; [destruct H|].
  destruct (Z.eqb_spec x k) as [->|Hne]; cbn.
  - pose proof (filter_length_le (fun y => negb (y =? k)) r). lia.
  - destruct H as [->|H]; [congruence|]. specialize (IH H). lia.
Qed.

Lemma insert_sorted_spec k t y : In y (insert_sorted k t) <-> y = k \/ In y t.
Proof.
  induction t as [|x r IH]; cbn; [intuition congruence|].
  destruct (k <? x); cbn; [intuition congruence|]. rewrite IH. intuition congruence.
Qed.

Lemma rb_insert_ok m t k t' :
  ztier_rb_insert m t k = Ok t' ->
  ~ In k t /\ (forall y, In y t' <-> y = k \/ In y t).
Proof.
  unfold ztier_rb_insert.
  destruct (k <? 4096); [discriminate|].
  destruct (negb (fill_ok m (struct_chunk k))); [discriminate|].
  destruct (existsb (Z.eqb k) t) eqn:E; [discriminate|].
  intros H; inversion H; subst. split.
  - intros Hin. assert (existsb (Z.eqb k) t = true) as E'
      by (apply existsb_exists; exists k; split; [auto|apply Z.eqb_refl]).
    congruence.
  - intros y. apply insert_sorted_spec.
Qed.

Lemma rb_insert_dup m t k : In k t -> ztier_rb_insert m t k = Bug.
Proof.
  intros Hin. unfold ztier_rb_insert.
  destruct (k <? 4096); [reflexivity|].
  destruct (negb (fill_ok m (struct_chunk k))); [reflexivity|].
  assert (existsb (Z.eqb k) t = true) as E
    by (apply existsb_exists; exists k; split; [auto|apply Z.eqb_refl]).
  rewrite E. reflexivity.
Qed.

Lemma move_range_loop_ok m fuel from to start after from' to' :
  (length from < fuel)%nat ->
  move_range_loop m fuel from to start after = Ok (from', to') ->
  (forall y, In y from' <-> In y from /\ ~ in_range start after y) /\
  move_target_spec from start after to to'.
Proof.
  unfold in_range.
  revert from to; induction fuel as [|fuel IH]; intros from to Hlen H; [lia|]; unfold in_range in *.
  cbn in H. unfold ztier_rb_ceil in H.
  destruct (min_elt (filter _ from)) as [c|] eqn:Ec.
  - apply min_elt_spec in Ec as [Hc Hmin].
    apply filter_In in Hc as [Hc Hsc]. apply Z.leb_le in Hsc.
    assert (Hmin' : forall y, In y from -> start <= y -> c <= y)
      by (intros y Hy Hs; apply Hmin, filter_In; split; [auto|apply Z.leb_le; lia]).
    destruct (Z.leb_spec after c) as [Hac|Hca].
    + inversion H; subst. split.
      * intros y; split; [|tauto]. intros Hy; split; [auto|].
        intros [Hs Ha]. specialize (Hmin' y Hy Hs). lia.
      * destruct to' as [t|]; cbn; [|auto].
        intros y; split; [tauto|]. intros [Hy|[Hy [Hs Ha]]]; [auto|].
        specialize (Hmin' y Hy Hs). lia.
    + pose proof (erase_length c from Hc) as Hl.
      assert (Hfrom : forall y, In y from' <-> In y from /\ ~ (start <= y < after)).
      { destruct to as [t|].
        - destruct (ztier_rb_insert m t c) as [t1| |] eqn:Ei; try discriminate.
          destruct (IH (rb_erase c from) _ ltac:(lia) H) as [Hf _].
          intros y. rewrite Hf, erase_spec. split.
          + intros [[Hy Hne] Hr]; auto.
          + intros [Hy Hr]; repeat split; auto. intros ->; apply Hr; lia.
        - destruct (IH (rb_erase c from) _ ltac:(lia) H) as [Hf _].
          intros y. rewrite Hf, erase_spec. split.
          + intros [[Hy Hne] Hr]; auto.
          + intros [Hy Hr]; repeat split; auto. intros ->; apply Hr; lia. }
      split; [exact Hfrom|].
      destruct to as [t|].
      * destruct (ztier_rb_insert m t c) as [t1| |] eqn:Ei; try discriminate.
        destruct (IH (rb_erase c from) _ ltac:(lia) H) as [_ Ht].
        apply rb_insert_ok in Ei as [_ Ei].
        destruct to' as [t'|]; cbn in Ht |- *; [|exact Ht]; unfold in_range in *.
        intros y. rewrite Ht, Ei, erase_spec. split.
        -- intros [[->|Hy]|[[Hy Hne] Hr]].
           ++ right; split; [auto|lia].
           ++ left; auto.
           ++ right; split; auto.
        -- intros [Hy|[Hy Hr]]; auto.
           destruct (Z.eq_dec y c) as [->|Hne]; auto.
      * destruct (IH (rb_erase c from) _ ltac:(lia) H) as [_ Ht]. exact Ht.
  - apply min_elt_none in Ec. inversion H; subst. split.
    + intros y; split; [|tauto]. intros Hy; split; [auto|].
      intros [Hs Ha]. assert (In y (filter (fun y => start <=? y) from')) as Hy'
        by (apply filter_In; split; [auto|apply Z.leb_le; lia]).
      rewrite Ec in Hy'. destruct Hy'.
    + destruct to' as [t|]; cbn; [|auto].
      intros y; split; [tauto|]. intros [Hy|[Hy [Hs Ha]]]; [auto|].
      assert (In y (filter (fun y => start <=? y) from')) as Hy'
        by (apply filter_In; split; [auto|apply Z.leb_le; lia]).
      rewrite Ec in Hy'. destruct Hy'.
Qed.

Lemma move_range_ok m from to start after from' to' :
  ztier_rb_move_range m from to start after = Ok (from', to') ->
  (forall y, In y from' <-> In y from /\ ~ in_range start after y) /\
  move_target_spec from start after to to'.
Proof. apply move_range_loop_ok. lia. Qed.

(** ** Symbolic execution of the monad *)

Lemma bind_get {A} (k : state -> M A) s : bind get k s = k s s.
Proof. reflexivity. Qed.
Lemma bind_modify {A} f (k : unit -> M A) s : bind (modify f) k s = k tt (f s).
Proof. reflexivity. Qed.
Lemma bind_ret {A B} (x : A) (k : A -> M B) s : bind (ret x) k s = k x s.
Proof. reflexivity. Qed.
Lemma bind_BUG_ON {A} b (k : unit -> M A) s :
  bind (BUG_ON b) k s = if b then Bug else k tt s.
Proof. destruct b; reflexivity. Qed.
Lemma bind_bug' {A B} (k : A -> M B) s : bind bug k s = Bug.
Proof. reflexivity. Qed.
Lemma bind_lift {A B} (o : outcome A) (k : A -> M B) s :
  bind (lift o) k s = match o with Ok a => k a s | Bug => Bug | Hang => Hang end.
Proof. destruct o; reflexivity. Qed.
Lemma bind_assoc {A B C} (m : M A) (k : A -> M B) (k' : B -> M C) s :
  bind (bind m k) k' s = bind m (fun a => bind (k a) k') s.
Proof. unfold bind. destruct (m s) as [[a s1]| |]; reflexivity. Qed.

Ltac simp_in H :=
  repeat (cbv beta zeta in H;
          first [ rewrite bind_get in H | rewrite bind_modify in H
                | rewrite bind_ret in H | rewrite bind_BUG_ON in H
                | rewrite bind_bug' in H | rewrite bind_lift in H
                | rewrite bind_assoc in H ]);
  cbv beta zeta in H.

(** Split on the first [if]/[match] guarding a [Bug] in [H]. *)
Ltac case_bug H :=
  match type of H with
  | context [if ?b then Bug else _] =>
      let E := fresh "E" in destruct b eqn:E; [discriminate|]
  end.

Ltac inv_ok H := inversion H; subst; clear H.

Lemma insert_free_ok tier k s u s' :
  insert_free tier k s = Ok (u, s') ->
  exists t', ztier_rb_insert (mem s) (free_lists s tier) k = Ok t' /\
             s' = set_free_lists tier t' s.
Proof.
  unfold insert_free. intros H. simp_in H.
  destruct (ztier_rb_insert _ _ _) as [t'| |]; try discriminate.
  simp_in H. inv_ok H. eauto.
Qed.

Lemma insert_reclaim_ok k s u s' :
  insert_reclaim k s = Ok (u, s') ->
  exists t', ztier_rb_insert (mem s) (under_reclaim s) k = Ok t' /\
             s' = set_under_reclaim t' s.
Proof.
  unfold insert_reclaim. intros H. simp_in H.
  destruct (ztier_rb_insert _ _ _) as [t'| |]; try discriminate.
  simp_in H. inv_ok H. eauto.
Qed.

(** The effect of a [ztier_free] that returns. *)
Lemma ztier_free_ok h s u s' :
  ztier_free h s = Ok (u, s') ->
  let pfn := virt_to_page (Z.land h PAGE_MASK) in
  let tier := Z.land (priv s pfn) TIER_MASK in
  let s1 := set_mem (memset (mem s) h 170 (tier_size tier)) s in
  h <> 0 /\ 0 <= tier < NUM_TIERS /\ h mod tier_size tier = 0 /\
  (if Z.testbit (priv s pfn) 63
   then exists t', ztier_rb_insert (mem s1) (under_reclaim s) (chunk_struct h) = Ok t'
                   /\ s' = set_under_reclaim t' s1
   else exists t', ztier_rb_insert (mem s1) (free_lists s tier) (chunk_struct h) = Ok t'
                   /\ s' = set_free_lists tier t' s1).
Proof.
  unfold ztier_free. intros H. simp_in H. case_bug H.
  simp_in H.
  assert (Htier : 0 <= Z.land (priv s (virt_to_page (Z.land h PAGE_MASK))) TIER_MASK).
  { apply Z.land_nonneg. right. apply mask_nonneg. }
  destruct (TIER_SIZES _) as [ts|] eqn:Ets; [|simp_in H; discriminate].
  simp_in H. case_bug H. simp_in H. case_bug H. unfold fill in H. simp_in H.
  apply Z.eqb_neq in E. apply negb_false_iff, Z.eqb_eq in E0.
  apply Z.leb_gt in E1.
  assert (Hts : tier_size (Z.land (priv s (virt_to_page (Z.land h PAGE_MASK))) TIER_MASK) = ts)
    by (unfold tier_size; rewrite Ets; reflexivity).
  rewrite Hts.
  split; [exact E|]. split; [lia|]. split; [exact E0|].
  destruct (Z.testbit _ 63).
  - apply insert_reclaim_ok in H. exact H.
  - apply insert_free_ok in H. exact H.
Qed.

(** ** Claims *)

(** *** C1 *)

(** C1: a returning [ztier_free(pool, handle)] reads [ztier_private] of the
    handle's page under the lock; when its RECLAIM_FLAG bit is set it adds
    the chunk to [under_reclaim] (and no free list changes), when it is
    clear it adds the chunk to [free_lists[tier]] (no other free list and
    not [under_reclaim] change); either way no page is handed to
    [__free_page] (the event log is unchanged) and neither [pool->size] nor
    the [used_pages] lists change. *)
Theorem ztier_free_destination h s u s' :
  ztier_free h s = Ok (u, s') ->
  let pfn := virt_to_page (Z.land h PAGE_MASK) in
  let c := Z.land (priv s pfn) TIER_MASK in
  let r := Z.testbit (priv s pfn) 63 in
  (r = true ->
     (forall y, In y (under_reclaim s') <-> y = chunk_struct h \/ In y (under_reclaim s)) /\
     free_lists s' = free_lists s) /\
  (r = false ->
     (forall y, In y (free_lists s' c) <-> y = chunk_struct h \/ In y (free_lists s c)) /\
     (forall c', c' <> c -> free_lists s' c' = free_lists s c') /\
     under_reclaim s' = under_reclaim s) /\
  log s' = log s /\ size s' = size s /\ used_pages s' = used_pages s.
Proof.
  intros H pfn c r.
  apply ztier_free_ok in H. cbv zeta in H.
  destruct H as (_ & _ & _ & H).
  fold pfn in H. fold c in H. fold r in H.
  destruct r; destruct H as (t' & Hins & ->); apply rb_insert_ok in Hins as [_ Hins].
  - cbn. split; [|split; [intros Hf; discriminate Hf|repeat split]].
    intros _. split; [exact Hins|reflexivity].
  - cbn. split; [intros Hf; discriminate Hf|]. split; [|repeat split].
    intros _. unfold upd. split; [|split].
    + intros y. rewrite Z.eqb_refl. apply Hins.
    + intros c' Hc'. destruct (Z.eqb_spec c' c); [contradiction|reflexivity].
    + reflexivity.
Qed.

Lemma ztier_free_destination_witness :
  exists s', ztier_free 20480 (pool_one_live evict_fail) = Ok (tt, s') /\
             log s' = log (pool_one_live evict_fail) /\
             size s' = size (pool_one_live evict_fail) /\
             (forall y, In y (free_lists s' 0) <->
                        y = 20488 \/ In y (free_lists (pool_one_live evict_fail) 0)).
Proof.
  set (s := pool_one_live evict_fail).
  assert (H : ztier_free 20480 s = Ok (tt, out_state (ztier_free 20480 s) s))
    by (vm_compute; reflexivity).
  exists (out_state (ztier_free 20480 s) s). split; [exact H|].
  pose proof (ztier_free_destination _ _ _ _ H) as C. cbv zeta in C.
  destruct C as (_ & Cf & Clog & Csize & _).
  split; [exact Clog|]. split; [exact Csize|].
  assert (Hf : Z.testbit (priv s (virt_to_page (Z.land 20480 PAGE_MASK))) 63 = false)
    by (vm_compute; reflexivity).
  destruct (Cf Hf) as (Cin & _ & _).
  assert (Hc : Z.land (priv s (virt_to_page (Z.land 20480 PAGE_MASK))) TIER_MASK = 0)
    by (vm_compute; reflexivity).
  rewrite Hc in Cin. exact Cin.
Defined.

(** ** Tier sizes and updates *)

Lemma tier_size_facts c : 0 <= c < NUM_TIERS ->
  TIER_SIZES c = Some (tier_size c) /\ (256 | tier_size c) /\ 0 < tier_size c.
Proof.
  unfold NUM_TIERS; intros Hc.
  assert (c = 0 \/ c = 1 \/ c = 2) as [->|[->| ->]] by lia;
    (split; [reflexivity|split; [|cbn; lia]]).
  - exists 8. reflexivity.
  - exists 4. reflexivity.
  - exists 1. reflexivity.
Qed.

Lemma upd_same {A} (f : Z -> A) i v : upd f i v i = v.
Proof. unfold upd. rewrite Z.eqb_refl. reflexivity. Qed.

Lemma upd_other {A} (f : Z -> A) i j v : j <> i -> upd f i v j = f j.
Proof. intros H. unfold upd. destruct (Z.eqb_spec j i); [contradiction|reflexivity]. Qed.

(** ** The steps of allocation *)

Lemma alloc_take_ok tier k s h s' :
  alloc_take tier k s = Ok (h, s') ->
  h = struct_chunk k /\ s' = set_free_lists tier (rb_erase k (free_lists s tier)) s.
Proof. unfold alloc_take. intros H. simp_in H. inv_ok H. auto. Qed.

Lemma tier_size_values :
  tier_size 0 = 2048 /\ tier_size 1 = 1024 /\ tier_size 2 = 256 /\ tier_size 3 = 0.
Proof. repeat split. Qed.

Lemma choose_tier_unfold sz :
  choose_tier sz =
  if sz <=? 256 then Some 2 else if sz <=? 1024 then Some 1
  else if sz <=? 2048 then Some 0 else None.
Proof. reflexivity. Qed.

Lemma choose_tier_defined sz :
  sz <= tier_size 0 -> exists c, choose_tier sz = Some c.
Proof.
  rewrite choose_tier_unfold. destruct tier_size_values as (T0 & _). rewrite T0.
  intros Hsz.
  destruct (Z.leb_spec sz 256); [eauto|].
  destruct (Z.leb_spec sz 1024); [eauto|].
  destruct (Z.leb_spec sz 2048); [eauto|lia].
Qed.

(** A failed [ztier_alloc] leaves the pool as it was. *)
Lemma ztier_alloc_inr sz gfp pg s e s' :
  ztier_alloc sz gfp pg s = Ok (inr e, s') -> s' = s.
Proof.
  intros H. unfold ztier_alloc in H.
  destruct (_ || _); [inv_ok H; reflexivity|].
  destruct (_ <? _); [inv_ok H; reflexivity|].
  destruct (choose_tier sz) as [tier|]; [|discriminate].
  simp_in H. destruct (rb_first _) as [k|].
  - peel H. unfold fill in H. simp_in H. inv_ok H.
  - destruct pg as [pfn|]; [|inv_ok H; reflexivity].
    peel H. unfold fill in H. simp_in H. inv_ok H.
Qed.

(** ** The steps of reclaim *)

Lemma move_free_to_reclaim_ok tier a b s u s' :
  move_free_to_reclaim tier a b s = Ok (u, s') ->
  exists f' r',
    (forall y, In y f' <-> In y (free_lists s tier) /\ ~ in_range a b y) /\
    (forall y, In y r' <-> In y (under_reclaim s) \/
                           (In y (free_lists s tier) /\ in_range a b y)) /\
    s' = set_under_reclaim r' (set_free_lists tier f' s).
Proof.
  unfold move_free_to_reclaim. intros H. simp_in H.
  destruct (ztier_rb_move_range _ _ _ _ _) as [[f' [r'|]]| |] eqn:E;
    try discriminate; simp_in H.
  inv_ok H. apply move_range_ok in E as [Hf Hr]. cbn in Hr. eauto.
Qed.

Lemma move_reclaim_to_free_ok tier a b s u s' :
  move_reclaim_to_free tier a b s = Ok (u, s') ->
  exists r' f',
    (forall y, In y r' <-> In y (under_reclaim s) /\ ~ in_range a b y) /\
    (forall y, In y f' <-> In y (free_lists s tier) \/
                           (In y (under_reclaim s) /\ in_range a b y)) /\
    s' = set_free_lists tier f' (set_under_reclaim r' s).
Proof.
  unfold move_reclaim_to_free. intros H. simp_in H.
  destruct (ztier_rb_move_range _ _ _ _ _) as [[r' [f'|]]| |] eqn:E;
    try discriminate; simp_in H.
  inv_ok H. apply move_range_ok in E as [Hr Hf]. cbn in Hf. eauto.
Qed.

Lemma discard_reclaim_ok a b s u s' :
  discard_reclaim a b s = Ok (u, s') ->
  exists r',
    (forall y, In y r' <-> In y (under_reclaim s) /\ ~ in_range a b y) /\
    s' = set_under_reclaim r' s.
Proof.
  unfold discard_reclaim. intros H. simp_in H.
  destruct (ztier_rb_move_range _ _ _ _ _) as [[r' t]| |] eqn:E;
    try discriminate; simp_in H.
  inv_ok H. apply move_range_ok in E as [Hr _]. eauto.
Qed.

Lemma select_page_ok ct cp s r s' :
  ztier_reclaim_select_page ct cp s = Ok (r, s') ->
  s' = s \/ exists l, s' = set_used_pages ct l s.
Proof.
  unfold ztier_reclaim_select_page. intros H.
  destruct (ct <? NUM_TIERS); [|inv_ok H; auto].
  simp_in H. destruct (rev _) as [|chosen rest]; [inv_ok H; auto|].
  destruct (Z.testbit _ 63); [discriminate|].
  destruct (match cp with Some p => _ | None => _ end); [inv_ok H; auto|].
  simp_in H. inv_ok H. eauto.
Qed.

Lemma land_mask_nonneg p : 0 <= Z.land p TIER_MASK.
Proof. apply Z.land_nonneg. right. apply mask_nonneg. Qed.

Lemma reclaim_quarantine_ok pfn ct s rt s' :
  reclaim_quarantine pfn ct s = Ok (rt, s') ->
  let p := priv s pfn in
  let vaddr := page_address pfn in
  Z.testbit p 63 = false /\ 0 <= rt < NUM_TIERS /\ rt = Z.land p TIER_MASK /\
  ct < NUM_TIERS /\
  exists f' r',
    (forall y, In y f' <-> In y (free_lists s rt) /\ ~ in_range vaddr (vaddr + PAGE_SIZE) y) /\
    (forall y, In y r' <-> In y (under_reclaim s) \/
                 (In y (free_lists s rt) /\ in_range vaddr (vaddr + PAGE_SIZE) y)) /\
    s' = set_under_reclaim r' (set_free_lists rt f'
           (set_used_pages ct (list_del pfn (used_pages s ct))
              (set_priv pfn (Z.lor p RECLAIM_FLAG) s))).
Proof.
  unfold reclaim_quarantine, ztier_page_chunks_under_reclaim. intros H.
  simp_in H. case_bug H. simp_in H. case_bug H. simp_in H. case_bug H. simp_in H.
  cbn [priv set_used_pages set_priv] in H. rewrite upd_same in H.
  rewrite flag_set_tier, flag_set_bit in H.
  case_bug H. case_bug H. cbn [negb] in H. peel H.
  apply move_free_to_reclaim_ok in Hm as (f' & r' & Hf & Hr & ->).
  simp_in H. inv_ok H.
  repeat match goal with E : (_ <=? _) = false |- _ => apply Z.leb_gt in E end.
  pose proof (land_mask_nonneg (priv s pfn)).
  split; [reflexivity|]. split; [lia|]. split; [reflexivity|]. split; [lia|].
  cbn [free_lists under_reclaim set_used_pages set_priv] in Hf, Hr.
  exists f', r'. split; [exact Hf|]. split; [exact Hr|reflexivity].
Qed.

Lemma all_chunks_reclaimed_state v offs s b s' :
  all_chunks_reclaimed v offs s = Ok (b, s') -> s' = s.
Proof.
  induction offs as [|i offs IH]; cbn; intros H; [inv_ok H; reflexivity|].
  destruct (negb _); [inv_ok H; reflexivity|].
  destruct (negb (fill_ok _ _)); [discriminate|]. exact (IH H).
Qed.

Lemma chunks_reclaimed_ok pfn s b s' :
  ztier_page_chunks_reclaimed pfn s = Ok (b, s') ->
  let p := priv s pfn in
  let vaddr := page_address pfn in
  Z.testbit p 63 = true /\ 0 <= Z.land p TIER_MASK < NUM_TIERS /\
  if b then
    exists r',
      (forall y, In y r' <-> In y (under_reclaim s) /\
                 ~ in_range (chunk_struct vaddr) (chunk_struct (vaddr + PAGE_SIZE)) y) /\
      PAGE_SIZE <= size s /\
      s' = set_size (size s - PAGE_SIZE)
             (add_log (EvPageFree pfn)
                (set_priv pfn DEADBEEF
                   (set_mem (memset (mem s) vaddr 221 PAGE_SIZE)
                      (set_under_reclaim r' s))))
  else s' = s.
Proof.
  unfold ztier_page_chunks_reclaimed. intros H. simp_in H.
  case_bug H. simp_in H. case_bug H. simp_in H. case_bug H. simp_in H.
  apply Z.leb_gt in E. apply negb_false_iff in E1.
  pose proof (land_mask_nonneg (priv s pfn)).
  split; [exact E1|]. split; [lia|].
  peel H. apply all_chunks_reclaimed_state in Hm as ->.
  destruct a; cbn [negb] in H; [|inv_ok H; reflexivity].
  peel H. apply discard_reclaim_ok in Hm as (r' & Hr & ->).
  unfold fill in H. simp_in H. case_bug H. simp_in H. inv_ok H.
  apply Z.ltb_ge in E2. exists r'. split; [exact Hr|]. split; [exact E2|reflexivity].
Qed.

Lemma from_under_reclaim_ok pfn s u s' :
  ztier_page_chunks_from_under_reclaim pfn s = Ok (u, s') ->
  let p := priv s pfn in
  let vaddr := page_address pfn in
  Z.land p TIER_MASK < NUM_TIERS /\ Z.testbit p 63 = false /\
  exists r' f',
    (forall y, In y r' <-> In y (under_reclaim s) /\ ~ in_range vaddr (vaddr + PAGE_SIZE) y) /\
    (forall y, In y f' <-> In y (free_lists s (Z.land p TIER_MASK)) \/
                 (In y (under_reclaim s) /\ in_range vaddr (vaddr + PAGE_SIZE) y)) /\
    s' = set_free_lists (Z.land p TIER_MASK) f' (set_under_reclaim r' s).
Proof.
  unfold ztier_page_chunks_from_under_reclaim. intros H. simp_in H.
  case_bug H. simp_in H. case_bug H. simp_in H. case_bug H. simp_in H.
  apply Z.leb_gt in E. split; [exact E|]. split; [reflexivity|].
  apply move_reclaim_to_free_ok in H. exact H.
Qed.

Lemma reclaim_settle_ok pfn rt ct s b s' :
  reclaim_settle pfn rt ct s = Ok (b, s') ->
  let p := priv s pfn in
  let vaddr := page_address pfn in
  let tier := Z.land p TIER_MASK in
  Z.testbit p 63 = true /\ 0 <= tier < NUM_TIERS /\
  if b then
    exists r',
      (forall y, In y r' <-> In y (under_reclaim s) /\
                 ~ in_range (chunk_struct vaddr) (chunk_struct (vaddr + PAGE_SIZE)) y) /\
      PAGE_SIZE <= size s /\
      s' = set_size (size s - PAGE_SIZE)
             (add_log (EvPageFree pfn)
                (set_priv pfn DEADBEEF
                   (set_mem (memset (mem s) vaddr 221 PAGE_SIZE)
                      (set_under_reclaim r' s))))
  else
    rt = ct /\
    exists r' f',
      (forall y, In y r' <-> In y (under_reclaim s) /\ ~ in_range vaddr (vaddr + PAGE_SIZE) y) /\
      (forall y, In y f' <-> In y (free_lists s tier) \/
                   (In y (under_reclaim s) /\ in_range vaddr (vaddr + PAGE_SIZE) y)) /\
      s' = set_free_lists tier f'
             (set_under_reclaim r'
                (set_priv pfn (Z.land p (Z.lnot RECLAIM_FLAG))
                   (set_used_pages rt (pfn :: used_pages s rt) s))).
Proof.
  unfold reclaim_settle. intros H. peel H.
  apply chunks_reclaimed_ok in Hm. cbv zeta in Hm.
  destruct Hm as (Hb & Ht & Hm). split; [exact Hb|]. split; [exact Ht|].
  destruct a.
  - destruct Hm as (r' & Hr & Hsz & ->). inv_ok H. eauto.
  - subst. simp_in H. case_bug H. simp_in H. peel H. destruct a.
    apply from_under_reclaim_ok in Hm. cbv zeta in Hm.
    cbn [priv set_priv set_used_pages] in Hm. rewrite upd_same, flag_clear_tier in Hm.
    destruct Hm as (_ & _ & r' & f' & Hr & Hf & ->). inv_ok H.
    apply negb_false_iff, Z.eqb_eq in E. split; [exact E|].
    exists r', f'. split; [exact Hr|]. split; [exact Hf|reflexivity].
Qed.

(** ** Fatal assertions *)






(** *** C9 *)




(** *** C10 *)

(** C10: a returning [ztier_free(pool, handle)] overwrites all
    [TIER_SIZES[tier]] bytes of the chunk at [handle] with 0xAA, leaves the
    other bytes alone, and links the chunk's node, which lies inside the
    chunk, into [under_reclaim] or the tier's free tree. *)
Theorem ztier_free_poisons_chunk h s u s' :
  ztier_free h s = Ok (u, s') ->
  let pfn := virt_to_page (Z.land h PAGE_MASK) in
  let c := Z.land (priv s pfn) TIER_MASK in
  let ts := tier_size c in
  (forall a, h <= a < h + ts -> mem s' a = 170) /\
  (forall a, ~ (h <= a < h + ts) -> mem s' a = mem s a) /\
  h < chunk_struct h /\ chunk_struct h + 24 <= h + ts /\
  (In (chunk_struct h) (under_reclaim s') \/ In (chunk_struct h) (free_lists s' c)).
Proof.
  intros H pfn c ts. apply ztier_free_ok in H. cbv zeta in H.
  fold pfn c ts in H. destruct H as (_ & Hc & _ & H).
  destruct (tier_size_facts c Hc) as (_ & [q Hq] & Hpos). fold ts in Hq, Hpos.
  assert (Hmem : mem s' = memset (mem s) h 170 ts /\
                 (In (chunk_struct h) (under_reclaim s') \/ In (chunk_struct h) (free_lists s' c))).
  { destruct (Z.testbit _ 63); destruct H as (t' & Ht & ->);
      apply rb_insert_ok in Ht as [_ Ht]; (split; [reflexivity|]).
    - left. apply Ht. left. reflexivity.
    - right. cbn. rewrite upd_same. apply Ht. left. reflexivity. }
  destruct Hmem as [Hm Hin]. rewrite Hm. unfold memset, chunk_struct, SIZE_OF_ZSWPHDR.
  split; [|split; [|split; [lia|split; [lia|exact Hin]]]].
  - intros a Ha. destruct (Z.leb_spec h a); [|lia]. destruct (Z.ltb_spec a (h + ts)); [reflexivity|lia].
  - intros a Ha. destruct (Z.leb_spec h a); destruct (Z.ltb_spec a (h + ts)); cbn; lia || reflexivity.
Qed.

Lemma ztier_free_poisons_chunk_witness :
  exists s', ztier_free 20480 (pool_one_live evict_fail) = Ok (tt, s') /\
  (forall a, 20480 <= a < 20480 + 2048 -> mem s' a = 170) /\
  (In (chunk_struct 20480) (under_reclaim s') \/ In (chunk_struct 20480) (free_lists s' 0)).
Proof.
  assert (E : exists s', ztier_free 20480 (pool_one_live evict_fail) = Ok (tt, s'))
    by (vm_compute; eauto).
  destruct E as [s E]. exists s. split; [exact E|].
  pose proof (ztier_free_poisons_chunk _ _ _ _ E) as P. cbv zeta in P.
  assert (Hc : Z.land (priv (pool_one_live evict_fail)
                 (virt_to_page (Z.land 20480 PAGE_MASK))) TIER_MASK = 0)
    by (vm_compute; reflexivity).
  rewrite Hc in P. destruct P as (P1 & _ & _ & _ & P2). exact (conj P1 P2).
Defined.

(** *** C7 *)

(** C7: [ztier_alloc] returns [-EINVAL] when [size] is 0 or [__GFP_HIGHMEM]
    is requested; otherwise [-ENOSPC] when [size > TIER_SIZES[0]]; otherwise
    [-ENOMEM] when the chosen tier has no free chunk and [alloc_page]
    fails.  Every error return leaves the pool as it was. *)
Theorem ztier_alloc_errors sz gfp pg s :
  ((sz = 0 \/ Z.land gfp GFP_HIGHMEM <> 0) ->
     ztier_alloc sz gfp pg s = Ok (inr (- EINVAL), s)) /\
  (sz <> 0 -> Z.land gfp GFP_HIGHMEM = 0 -> tier_size 0 < sz ->
     ztier_alloc sz gfp pg s = Ok (inr (- ENOSPC), s)) /\
  (sz <> 0 -> Z.land gfp GFP_HIGHMEM = 0 -> sz <= tier_size 0 ->
     (forall c, choose_tier sz = Some c -> free_lists s c = []) -> pg = None ->
     ztier_alloc sz gfp pg s = Ok (inr (- ENOMEM), s)) /\
  (forall e s', ztier_alloc sz gfp pg s = Ok (inr e, s') -> s' = s).
Proof.
  unfold ztier_alloc. split; [|split; [|split]].
  - intros [->|Hg]; [reflexivity|].
    apply Z.eqb_neq in Hg. rewrite Hg, orb_true_r. reflexivity.
  - intros Hs Hg Hlt. apply Z.eqb_neq in Hs. apply Z.eqb_eq in Hg. apply Z.ltb_lt in Hlt.
    rewrite Hs, Hg, Hlt. reflexivity.
  - intros Hs Hg Hle Hfree ->.
    destruct (choose_tier_defined _ Hle) as [c Ec].
    apply Z.eqb_neq in Hs. apply Z.eqb_eq in Hg. apply Z.ltb_ge in Hle.
    rewrite Hs, Hg, Hle, Ec. cbn [negb orb]. rewrite bind_get, (Hfree c Ec). reflexivity.
  - intros e s'. apply ztier_alloc_inr.
Qed.

Lemma ztier_alloc_errors_witness :
  ztier_alloc 100 0 None (boot_state None) = Ok (inr (- ENOMEM), boot_state None).
Proof.
  apply (proj1 (proj2 (proj2 (ztier_alloc_errors 100 0 None (boot_state None)))));
    [discriminate|reflexivity|vm_compute; discriminate| |reflexivity].
  intros c Ec. reflexivity.
Defined.

(** ** Results of the reclaim loop *)

Lemma reclaim_loop_result k ct cp s r s' :
  reclaim_loop k ct cp s = Ok (r, s') -> r = - EAGAIN \/ r = 0.
Proof.
  revert ct cp s; induction k as [|k IH]; intros ct cp s H; cbn in H.
  - inv_ok H. auto.
  - simp_in H. case_bug H. peel H. destruct a as [[[pfn|] ct'] cp'].
    + peel H. peel H. peel H. destruct a1; [inv_ok H; auto|]. exact (IH _ _ _ H).
    + inv_ok H. auto.
Qed.

Lemma all_tiers_empty_spec s :
  ztier_all_tiers_empty s = true <->
  used_pages s 0 = [] /\ used_pages s 1 = [] /\ used_pages s 2 = [].
Proof.
  unfold ztier_all_tiers_empty.
  destruct (used_pages s 0), (used_pages s 1), (used_pages s 2);
    split; intros H; try discriminate; intuition discriminate.
Qed.

(** *** C6 *)

(** C6: [ztier_reclaim_page(pool, retries)] returns [-EINVAL] exactly when,
    on entry, no evict callback is registered, the [used_pages] lists of all
    tiers are empty, or [retries] is 0; the pool is then left as it was. *)
Theorem ztier_reclaim_einval n s :
  let cond := no_evict (ops s) = true \/
              (used_pages s 0 = [] /\ used_pages s 1 = [] /\ used_pages s 2 = []) \/
              n = 0 in
  (cond -> ztier_reclaim_page n s = Ok (- EINVAL, s)) /\
  (forall s', ztier_reclaim_page n s = Ok (- EINVAL, s') -> cond /\ s' = s).
Proof.
  cbv zeta. unfold ztier_reclaim_page. rewrite bind_get. split.
  - intros [H|[H|H]].
    + rewrite H. reflexivity.
    + apply all_tiers_empty_spec in H. rewrite H, orb_true_r. reflexivity.
    + subst n. rewrite !orb_true_r. reflexivity.
  - intros s' H.
    destruct (no_evict (ops s)) eqn:E1; [inv_ok H; auto|].
    destruct (ztier_all_tiers_empty s) eqn:E2.
    { inv_ok H. split; [|reflexivity]. right; left. apply all_tiers_empty_spec, E2. }
    destruct (Z.eqb_spec n 0) as [->|Hn]; [inv_ok H; auto|].
    cbn [orb] in H. apply reclaim_loop_result in H. unfold EINVAL, EAGAIN in H. lia.
Qed.

Lemma ztier_reclaim_einval_witness :
  ztier_reclaim_page 4 (boot_state None) = Ok (- EINVAL, boot_state None) /\
  ztier_reclaim_page 0 (pool_one_live evict_fail) = Ok (- EINVAL, pool_one_live evict_fail).
Proof.
  split.
  - apply (ztier_reclaim_einval 4 (boot_state None)). left. reflexivity.
  - apply (ztier_reclaim_einval 0 (pool_one_live evict_fail)). right; right. reflexivity.
Defined.

Ltac zdec :=
  repeat match goal with
  | |- context [?a <=? ?b] =>
      first [ replace (a <=? b) with true by (symmetry; apply Z.leb_le; lia)
            | replace (a <=? b) with false by (symmetry; apply Z.leb_gt; lia) ]
  | |- context [?a <? ?b] =>
      first [ replace (a <? b) with true by (symmetry; apply Z.ltb_lt; lia)
            | replace (a <? b) with false by (symmetry; apply Z.ltb_ge; lia) ]
  | |- context [?a =? ?b] =>
      first [ replace (a =? b) with true by (symmetry; apply Z.eqb_eq; lia)
            | replace (a =? b) with false by (symmetry; apply Z.eqb_neq; lia) ]
  | |- context [Z.min ?a ?b] =>
      first [ rewrite (Z.min_l a b) by lia | rewrite (Z.min_r a b) by lia ]
  end.

Lemma move_loop_step m fuel from to start after chunk :
  ztier_rb_ceil from start = Some chunk -> chunk < after ->
  move_range_loop m (S fuel) from to start after =
  match to with
  | None => move_range_loop m fuel (rb_erase chunk from) None start after
  | Some t =>
      match ztier_rb_insert m t chunk with
      | Ok t' => move_range_loop m fuel (rb_erase chunk from) (Some t') start after
      | Bug => Bug
      | Hang => Hang
      end
  end.
Proof.
  intros Hc Ha. cbn [move_range_loop]. rewrite Hc.
  replace (after <=? chunk) with false by (symmetry; apply Z.leb_gt; lia). reflexivity.
Qed.

Lemma move_loop_stop m fuel from to start after :
  ztier_rb_ceil from start = None ->
  move_range_loop m (S fuel) from to start after = Ok (from, to).
Proof. intros Hc. cbn [move_range_loop]. rewrite Hc. reflexivity. Qed.

Lemma move_two m k1 k2 to to' start after :
  start <= k1 < k2 -> k2 < after ->
  match to with
  | None => to' = None
  | Some t => t = [] /\ to' = Some [k1; k2] /\ 4096 <= k1 /\
              fill_ok m (struct_chunk k1) = true /\ fill_ok m (struct_chunk k2) = true
  end ->
  ztier_rb_move_range m [k1; k2] to start after = Ok ([], to').
Proof.
  intros H1 H2 Hto. unfold ztier_rb_move_range. cbn [length].
  assert (C1 : ztier_rb_ceil [k1; k2] start = Some k1).
  { unfold ztier_rb_ceil. cbn [filter]. zdec. cbn [min_elt]. zdec. reflexivity. }
  assert (E1 : rb_erase k1 [k1; k2] = [k2]).
  { unfold rb_erase. cbn [filter]. zdec. reflexivity. }
  assert (C2 : ztier_rb_ceil [k2] start = Some k2).
  { unfold ztier_rb_ceil. cbn [filter]. zdec. reflexivity. }
  assert (E2 : rb_erase k2 [k2] = []).
  { unfold rb_erase. cbn [filter]. zdec. reflexivity. }
  rewrite (move_loop_step _ _ _ _ _ _ _ C1) by lia.
  destruct to as [t|].
  - destruct Hto as (-> & -> & H3 & F1 & F2).
    unfold ztier_rb_insert at 1. zdec. rewrite F1. cbn [negb existsb insert_sorted].
    rewrite E1, (move_loop_step _ _ _ _ _ _ _ C2) by lia.
    unfold ztier_rb_insert. zdec. rewrite F2. cbn [negb existsb insert_sorted]. zdec.
    cbn [orb insert_sorted]. zdec. rewrite E2, move_loop_stop by reflexivity. reflexivity.
  - subst to'. rewrite E1, (move_loop_step _ _ _ _ _ _ _ C2) by lia.
    rewrite E2, move_loop_stop by reflexivity. reflexivity.
Qed.

Lemma struct_chunk_struct x : struct_chunk (chunk_struct x) = x.
Proof. unfold struct_chunk, chunk_struct. ring. Qed.

Ltac simp_goal :=
  repeat (cbv beta zeta;
          first [ rewrite bind_get | rewrite bind_modify | rewrite bind_ret
                | rewrite bind_BUG_ON | rewrite bind_lift | rewrite bind_assoc ]);
  cbv beta zeta.

Lemma select_single s pfn :
  used_pages s 0 = [pfn] -> Z.testbit (priv s pfn) 63 = false ->
  ztier_reclaim_select_page 0 None s = Ok ((Some pfn, 0, Some pfn), set_used_pages 0 [pfn] s).
Proof.
  intros Hu Hb. unfold ztier_reclaim_select_page. cbn [Z.ltb Z.compare NUM_TIERS].
  simp_goal. rewrite Hu. cbn [rev app]. rewrite Hb. simp_goal. reflexivity.
Qed.

Lemma quarantine_single s pfn :
  let pa := page_address pfn in
  1 <= pfn -> priv s pfn = 0 -> used_pages s 0 = [pfn] ->
  free_lists s 0 = [chunk_struct pa; chunk_struct (pa + 2048)] ->
  under_reclaim s = [] ->
  fill_ok (mem s) pa = true -> fill_ok (mem s) (pa + 2048) = true ->
  reclaim_quarantine pfn 0 s =
  Ok (0, set_under_reclaim [chunk_struct pa; chunk_struct (pa + 2048)]
           (set_free_lists 0 []
              (set_used_pages 0 [] (set_priv pfn (Z.lor 0 RECLAIM_FLAG) s)))).
Proof.
  intros pa Hp Hpv Hu Hf Hr F1 F2.
  unfold reclaim_quarantine, ztier_page_chunks_under_reclaim, move_free_to_reclaim.
  simp_goal. rewrite Hpv. simp_goal.
  cbn [priv free_lists under_reclaim used_pages mem set_used_pages set_priv].
  rewrite upd_same, Hu.
  assert (L : Z.land (Z.lor 0 RECLAIM_FLAG) TIER_MASK = 0) by reflexivity.
  assert (B : Z.testbit (Z.lor 0 RECLAIM_FLAG) 63 = true) by reflexivity.
  rewrite L, B. cbn [negb]. change (NUM_TIERS <=? 0) with false.
  replace (page_address pfn =? 0) with false
    by (symmetry; apply Z.eqb_neq; unfold page_address, PAGE_SIZE; lia).
  assert (Hd : list_del pfn [pfn] = []) by (unfold list_del; cbn; rewrite Z.eqb_refl; reflexivity).
  rewrite Hd, Hf, Hr.
  rewrite (move_two _ _ _ (Some []) (Some [chunk_struct pa; chunk_struct (pa + 2048)])).
  - simp_goal. reflexivity.
  - unfold pa, chunk_struct, SIZE_OF_ZSWPHDR, page_address, PAGE_SIZE. lia.
  - unfold pa, chunk_struct, SIZE_OF_ZSWPHDR, page_address, PAGE_SIZE. lia.
  - rewrite !struct_chunk_struct. repeat split; auto.
    unfold pa, chunk_struct, SIZE_OF_ZSWPHDR, page_address, PAGE_SIZE. lia.
Qed.

Lemma chunk_offsets_tier0 : chunk_offsets (tier_size 0) = [0; 2048].
Proof. reflexivity. Qed.

Lemma evict_single s pfn :
  let pa := page_address pfn in
  1 <= pfn -> priv s pfn = Z.lor 0 RECLAIM_FLAG ->
  under_reclaim s = [chunk_struct pa; chunk_struct (pa + 2048)] ->
  fill_ok (mem s) pa = true -> fill_ok (mem s) (pa + 2048) = true ->
  ztier_attempt_evict_page_chunks pfn s = Ok (tt, s).
Proof.
  intros pa Hp Hpv Hr F1 F2. unfold ztier_attempt_evict_page_chunks.
  simp_goal. rewrite Hpv.
  assert (L : Z.land (Z.lor 0 RECLAIM_FLAG) TIER_MASK = 0) by reflexivity.
  assert (B : Z.testbit (Z.lor 0 RECLAIM_FLAG) 63 = true) by reflexivity.
  rewrite L, B, chunk_offsets_tier0. cbn [negb]. change (NUM_TIERS <=? 0) with false.
  replace (page_address pfn =? 0) with false
    by (symmetry; apply Z.eqb_neq; unfold page_address, PAGE_SIZE; lia).
  fold pa. cbn [evict_chunks]. simp_goal. rewrite Hr, Z.add_0_r.
  rewrite (proj2 (contains_spec [chunk_struct pa; chunk_struct (pa + 2048)] (chunk_struct pa)
    ltac:(unfold pa, chunk_struct, SIZE_OF_ZSWPHDR, page_address, PAGE_SIZE; lia)))
    by (left; reflexivity).
  cbn [negb]. simp_goal. rewrite F1. cbn [negb evict_chunks]. simp_goal. rewrite Hr.
  rewrite (proj2 (contains_spec [chunk_struct pa; chunk_struct (pa + 2048)] (chunk_struct (pa + 2048))
    ltac:(unfold pa, chunk_struct, SIZE_OF_ZSWPHDR, page_address, PAGE_SIZE; lia)))
    by (right; left; reflexivity).
  cbn [negb]. simp_goal. rewrite F2. reflexivity.
Qed.

Lemma settle_single s pfn :
  let pa := page_address pfn in
  1 <= pfn -> priv s pfn = Z.lor 0 RECLAIM_FLAG ->
  under_reclaim s = [chunk_struct pa; chunk_struct (pa + 2048)] ->
  fill_ok (mem s) pa = true -> fill_ok (mem s) (pa + 2048) = true ->
  PAGE_SIZE <= size s ->
  reclaim_settle pfn 0 0 s =
  Ok (true, set_size (size s - PAGE_SIZE)
              (add_log (EvPageFree pfn)
                 (set_priv pfn DEADBEEF
                    (set_mem (memset (mem s) pa 221 PAGE_SIZE)
                       (set_under_reclaim [] s))))).
Proof.
  intros pa Hp Hpv Hr F1 F2 Hsz.
  unfold reclaim_settle, ztier_page_chunks_reclaimed. simp_goal. rewrite Hpv.
  assert (L : Z.land (Z.lor 0 RECLAIM_FLAG) TIER_MASK = 0) by reflexivity.
  assert (B : Z.testbit (Z.lor 0 RECLAIM_FLAG) 63 = true) by reflexivity.
  rewrite L, B, chunk_offsets_tier0. cbn [negb]. change (NUM_TIERS <=? 0) with false.
  replace (page_address pfn =? 0) with false
    by (symmetry; apply Z.eqb_neq; unfold page_address, PAGE_SIZE; lia).
  fold pa. cbn [all_chunks_reclaimed]. simp_goal. rewrite Hr, Z.add_0_r.
  rewrite (proj2 (contains_spec [chunk_struct pa; chunk_struct (pa + 2048)] (chunk_struct pa)
    ltac:(unfold pa, chunk_struct, SIZE_OF_ZSWPHDR, page_address, PAGE_SIZE; lia)))
    by (left; reflexivity).
  cbn [negb]. simp_goal. rewrite F1. cbn [negb all_chunks_reclaimed]. simp_goal. rewrite Hr.
  rewrite (proj2 (contains_spec [chunk_struct pa; chunk_struct (pa + 2048)] (chunk_struct (pa + 2048))
    ltac:(unfold pa, chunk_struct, SIZE_OF_ZSWPHDR, page_address, PAGE_SIZE; lia)))
    by (right; left; reflexivity).
  cbn [negb]. simp_goal. rewrite F2. cbn [negb]. simp_goal.
  unfold discard_reclaim. simp_goal. rewrite Hr.
  rewrite (move_two _ _ _ None None).
  - unfold fill. simp_goal. cbn [fst size set_size add_log set_priv set_mem set_under_reclaim].
    replace (size s <? PAGE_SIZE) with false by (symmetry; apply Z.ltb_ge; exact Hsz).
    reflexivity.
  - unfold pa, chunk_struct, SIZE_OF_ZSWPHDR, page_address, PAGE_SIZE. lia.
  - unfold pa, chunk_struct, SIZE_OF_ZSWPHDR, page_address, PAGE_SIZE. lia.
  - reflexivity.
Qed.

(** *** C5 *)

(** C5: on a pool whose only page is a tier-0 page [pfn] with both of its
    2KB chunks free (their first words carry the fill pattern that
    [ztier_free] or [ztier_init_page] wrote), [ztier_reclaim_page] with
    [retries >= 1] returns 0 without calling the evict callback: the only
    event is [__free_page] of [pfn]; [pool->size] drops to 0, and the page
    leaves [used_pages] and every tree. *)
Theorem reclaim_free_single_page s pfn n f :
  let pa := page_address pfn in
  1 <= pfn -> 1 <= n ->
  ops s = Some (mk_ops (Some f)) ->
  used_pages s 0 = [pfn] -> used_pages s 1 = [] -> used_pages s 2 = [] ->
  priv s pfn = 0 ->
  free_lists s 0 = [chunk_struct pa; chunk_struct (pa + 2048)] ->
  under_reclaim s = [] ->
  fill_ok (mem s) pa = true -> fill_ok (mem s) (pa + 2048) = true ->
  size s = PAGE_SIZE ->
  exists s', ztier_reclaim_page n s = Ok (0, s') /\
    log s' = log s ++ [EvPageFree pfn] /\ size s' = 0 /\
    priv s' pfn = DEADBEEF /\ used_pages s' 0 = [] /\
    under_reclaim s' = [] /\ free_lists s' 0 = [].
Proof.
  intros pa Hp Hn Hops Hu0 Hu1 Hu2 Hpv Hf Hr F1 F2 Hsz.
  unfold ztier_reclaim_page. simp_goal. rewrite Hops. cbn [no_evict orb].
  unfold ztier_all_tiers_empty. rewrite Hu0.
  replace (n =? 0) with false by (symmetry; apply Z.eqb_neq; lia). cbn [orb].
  assert (En : Z.to_nat n = S (Z.to_nat (n - 1)))
    by (rewrite <- Z2Nat.inj_succ by lia; f_equal; lia).
  rewrite En. cbn [reclaim_loop]. simp_goal. change (NUM_TIERS <=? 0) with false.
  rewrite (bind_ok_eq _ _ _ _ _ (select_single s pfn Hu0 ltac:(rewrite Hpv; reflexivity))).
  cbv iota beta.
  rewrite (bind_ok_eq _ _ _ _ _ (quarantine_single (set_used_pages 0 [pfn] s) pfn Hp Hpv
             ltac:(reflexivity) Hf Hr F1 F2)).
  set (s4 := set_under_reclaim _ _).
  rewrite (bind_ok_eq _ _ _ _ _ (evict_single s4 pfn Hp ltac:(cbn; rewrite upd_same; reflexivity)
             ltac:(reflexivity) F1 F2)).
  rewrite (bind_ok_eq _ _ _ _ _ (settle_single s4 pfn Hp ltac:(cbn; rewrite upd_same; reflexivity)
             ltac:(reflexivity) F1 F2 ltac:(cbn; lia))).
  eexists. split; [reflexivity|]. cbn. rewrite Hsz.
  split; [reflexivity|]. split; [reflexivity|].
  split; [rewrite upd_same; reflexivity|]. split; [reflexivity|]. split; reflexivity.
Qed.

Lemma reclaim_free_single_page_witness :
  exists s', ztier_reclaim_page 8 (pool_one_free evict_fail) = Ok (0, s') /\
    log s' = log (pool_one_free evict_fail) ++ [EvPageFree 5] /\ size s' = 0 /\
    priv s' 5 = DEADBEEF /\ used_pages s' 0 = [] /\
    under_reclaim s' = [] /\ free_lists s' 0 = [].
Proof.
  apply (reclaim_free_single_page (pool_one_free evict_fail) 5 8 evict_fail);
    try lia; vm_compute; reflexivity.
Defined.

(** ** Reclaim with an empty first tier *)

(** *** C3 *)

(** C3 (what the code does): [ztier_reclaim_select_page] returns NULL as
    soon as it finds the current tier empty, and [ztier_reclaim_page] gives
    up on the first NULL; so when tier 0 (2KB) has no used page, a reclaim
    call leaves the pool unchanged and returns a negative code, whatever
    pages tiers 1 and 2 hold. *)
Theorem reclaim_stops_at_empty_first_tier n s r s' :
  used_pages s 0 = [] -> ztier_reclaim_page n s = Ok (r, s') -> s' = s /\ r < 0.
Proof.
  intros Hu H. unfold ztier_reclaim_page in H. rewrite bind_get in H.
  destruct (_ || _ || _); [inv_ok H; unfold EINVAL; split; [reflexivity|lia]|].
  destruct (Z.to_nat n) as [|k]; cbn [reclaim_loop] in H;
    [inv_ok H; unfold EAGAIN; split; [reflexivity|lia]|].
  simp_in H. change (NUM_TIERS <=? 0) with false in H. cbv iota in H.
  unfold ztier_reclaim_select_page in H. change (0 <? NUM_TIERS) with true in H.
  cbv iota in H. simp_in H. rewrite Hu in H. cbn [rev] in H.
  simp_in H. inv_ok H. unfold EAGAIN. split; [reflexivity|lia].
Qed.

Lemma reclaim_stops_at_empty_first_tier_witness :
  let s := pool_two_small_free evict_succeed in
  used_pages s 2 = [6; 5] /\ size s = 8192 /\
  exists r, ztier_reclaim_page 8 s = Ok (r, s) /\ r < 0.
Proof.
  cbv zeta. split; [vm_compute; reflexivity|]. split; [vm_compute; reflexivity|].
  assert (T : match ztier_reclaim_page 8 (pool_two_small_free evict_succeed) with
              | Ok _ => True | _ => False end) by (vm_compute; exact I).
  destruct (ztier_reclaim_page 8 (pool_two_small_free evict_succeed)) as [[r s']| |] eqn:E;
    [|contradiction|contradiction].
  destruct (reclaim_stops_at_empty_first_tier 8 (pool_two_small_free evict_succeed) r s'
              ltac:(vm_compute; reflexivity) E) as [-> Hr].
  exists r. split; [reflexivity|exact Hr].
Defined.

(** ** Runs on the node trees *)

Module RbPoolRuns.
Import RbPool.
Local Open Scope rbpool_scope.

(** *** C2 *)


(** *** C8 *)

(** C8 (what the code does): a chunk can be in a free tree and in
    [under_reclaim] at once, and [ztier_alloc] can return a handle whose
    chunk is in [under_reclaim].  After [six_chunks_four_freed], a reclaim
    selects frame 6 and quarantines it; the descent of [ztier_rb_ceil]
    misses 24584, which stays in the free tree of tier 0.
    [ztier_attempt_evict_page_chunks] then evicts the page's handles 24576
    and 26624, which puts 24584 into [under_reclaim] too; this is the state
    while the reclaim waits to settle with the pool lock released.  Two 2KB
    allocations in that state return 20480 and then 24576, whose chunk is
    in [under_reclaim]. *)
Theorem ztier_chunk_in_two_trees :
  match run (six_chunks_four_freed ++ [Select 0 None; Quarantine 6 0; Evict 6])
            (boot evict_succeed) with
  | Ok (_, s) =>
      In (chunk_struct 24576) (elements (free_lists s 0)) /\
      In (chunk_struct 24576) (elements (under_reclaim s)) /\
      match (ztier_alloc 2048 0 None ;;; ztier_alloc 2048 0 None) s with
      | Ok (r, s') => r = inl 24576 /\ In (chunk_struct 24576) (elements (under_reclaim s'))
      | _ => False
      end
  | _ => False
  end.
Proof. vm_compute. intuition (try reflexivity; try discriminate). Qed.

(** *** C4 *)

(** C4 (what the code does): a failed reclaim can leave a chunk of its page
    in [under_reclaim].  In the state [two_reclaims_in_flight], the free
    tree of tier 0 holds only 24584, of frame 6, and [under_reclaim] holds
    20488, 28680 and 30728 with 28680 at the root.
    [ztier_reclaim_page(pool, 1)] quarantines frame 6, which links 24584
    below 20488; the eviction of 26624 fails, and the restore
    [ztier_page_chunks_from_under_reclaim] starts from
    [ztier_rb_ceil(24576)], whose descent stops at the root 28680, past the
    page, so 24584 is not moved back.  The call returns [-EAGAIN] with the
    size unchanged, the flag of frame 6 clear and the page on the used
    list of tier 0, but its free chunk is in [under_reclaim] and the free
    tree of tier 0 is empty. *)
Theorem ztier_restore_misses_chunk :
  match run two_reclaims_in_flight (boot (evict_except 26624)) with
  | Ok (_, s) =>
      elements (free_lists s 0) = [chunk_struct 24576] /\
      elements (under_reclaim s) = [20488; 28680; 30728] /\
      match ztier_reclaim_page 1 s with
      | Ok (r, s') =>
          r = - EAGAIN /\ size s' = size s /\
          Z.testbit (priv s' 6) 63 = false /\ used_pages s' 0 = [6] /\
          elements (free_lists s' 0) = [] /\
          elements (under_reclaim s') = [20488; chunk_struct 24576; 28680; 30728]
      | _ => False
      end
  | _ => False
  end.
Proof. vm_compute. intuition (try reflexivity; try discriminate). Qed.

End RbPoolRuns.

(** * Further properties of the code *)

(** ** The literal rb-tree descents *)

Module RbWalkFacts.
Import RbWalk.

Lemma bst_node l k r :
  is_bst (Node l k r) = true ->
  is_bst l = true /\ is_bst r = true /\
  (forall x, In x (elements l) -> x < k) /\ (forall x, In x (elements r) -> k < x).
Proof.
  cbn [is_bst]. intros H. apply andb_prop in H as [H H4].
  apply andb_prop in H as [H H3]. apply andb_prop in H as [H1 H2].
  rewrite forallb_forall in H3, H4.
  split; [exact H1|]. split; [exact H2|]. split.
  - intros x Hx. apply Z.ltb_lt, H3, Hx.
  - intros x Hx. apply Z.ltb_lt, H4, Hx.
Qed.

Lemma in_node x l k r :
  In x (elements (Node l k r)) <-> In x (elements l) \/ x = k \/ In x (elements r).
Proof.
  cbn [elements]. rewrite in_app_iff. cbn. intuition.
Qed.

Lemma key_in t k : key t = Some k -> In k (elements t).
Proof. destruct t; cbn; [discriminate|]. intros [= ->]. apply in_node. auto. Qed.

Lemma ceil_some t c x :
  ztier_rb_ceil t c = Some x -> In x (elements t) /\ c <= x.
Proof.
  induction t as [|l IHl k r IHr]; cbn [ztier_rb_ceil]; [discriminate|].
  destruct (Z.ltb_spec k c) as [Hkc|Hkc].
  - intros H. destruct (IHr H) as [Hi Hc]. split; [apply in_node; auto|exact Hc].
  - destruct (Z.eqb_spec k c) as [->|Hne].
    + intros [= <-]. split; [apply in_node; auto|lia].
    + destruct (key l) as [lk|].
      * destruct (Z.ltb_spec lk c) as [Hlc|Hlc].
        -- intros [= <-]. split; [apply in_node; auto|lia].
        -- intros H. destruct (IHl H) as [Hi Hc]. split; [apply in_node; auto|exact Hc].
      * intros [= <-]. split; [apply in_node; auto|lia].
Qed.

Lemma ceil_none t c :
  is_bst t = true ->
  ztier_rb_ceil t c = None <-> (forall y, In y (elements t) -> y < c).
Proof.
  induction t as [|l IHl k r IHr]; intros Hb; cbn [ztier_rb_ceil].
  - split; [intros _ y []|reflexivity].
  - apply bst_node in Hb as (Hl & Hr & Hlk & Hkr).
    destruct (Z.ltb_spec k c) as [Hkc|Hkc].
    + rewrite (IHr Hr). split.
      * intros H y Hy. apply in_node in Hy as [Hy|[->|Hy]]; auto.
        specialize (Hlk y Hy). lia.
      * intros H y Hy. apply H, in_node. auto.
    + split.
      * destruct (Z.eqb_spec k c); [discriminate|].
        destruct (key l) as [lk|] eqn:El; [|discriminate].
        destruct (Z.ltb_spec lk c) as [Hlc|Hlc]; [discriminate|].
        intros H. apply (IHl Hl) with (y := lk) in H; [lia|]. apply key_in, El.
      * intros H. specialize (H k ltac:(apply in_node; auto)). lia.
Qed.

Lemma floor_some t c x :
  ztier_rb_floor t c = Some x -> In x (elements t) /\ x <= c.
Proof.
  induction t as [|l IHl k r IHr]; cbn [ztier_rb_floor]; [discriminate|].
  destruct (Z.ltb_spec c k) as [Hkc|Hkc].
  - intros H. destruct (IHl H) as [Hi Hc]. split; [apply in_node; auto|exact Hc].
  - destruct (Z.eqb_spec k c) as [->|Hne].
    + intros [= <-]. split; [apply in_node; auto|lia].
    + destruct (key r) as [rk|].
      * destruct (Z.ltb_spec c rk) as [Hlc|Hlc].
        -- intros [= <-]. split; [apply in_node; auto|lia].
        -- intros H. destruct (IHr H) as [Hi Hc]. split; [apply in_node; auto|exact Hc].
      * intros [= <-]. split; [apply in_node; auto|lia].
Qed.

Lemma floor_none t c :
  is_bst t = true ->
  ztier_rb_floor t c = None <-> (forall y, In y (elements t) -> c < y).
Proof.
  induction t as [|l IHl k r IHr]; intros Hb; cbn [ztier_rb_floor].
  - split; [intros _ y []|reflexivity].
  - apply bst_node in Hb as (Hl & Hr & Hlk & Hkr).
    destruct (Z.ltb_spec c k) as [Hkc|Hkc].
    + rewrite (IHl Hl). split.
      * intros H y Hy. apply in_node in Hy as [Hy|[->|Hy]]; auto.
        specialize (Hkr y Hy). lia.
      * intros H y Hy. apply H, in_node. auto.
    + split.
      * destruct (Z.eqb_spec k c); [discriminate|].
        destruct (key r) as [rk|] eqn:Er; [|discriminate].
        destruct (Z.ltb_spec c rk) as [Hlc|Hlc]; [discriminate|].
        intros H. apply (IHr Hr) with (y := rk) in H; [lia|]. apply key_in, Er.
      * intros H. specialize (H k ltac:(apply in_node; auto)). lia.
Qed.


(** X1: on a search tree, the descent of [ztier_rb_ceil] returns only keys
    of the tree that are [>= chunk], and returns NULL exactly when every key
    is [< chunk]. *)
Theorem ztier_rb_ceil_walk_sound t chunk :
  is_bst t = true ->
  (forall x, ztier_rb_ceil t chunk = Some x -> In x (elements t) /\ chunk <= x) /\
  (ztier_rb_ceil t chunk = None <-> (forall y, In y (elements t) -> y < chunk)).
Proof.
  intros Hb. split.
  - intros x. apply ceil_some.
  - apply ceil_none, Hb.
Qed.

Lemma ztier_rb_ceil_walk_sound_witness :
  ztier_rb_ceil t_10_3_15_7 5 = Some 10 /\ In 10 (elements t_10_3_15_7) /\ 5 <= 10.
Proof.
  split; [reflexivity|].
  apply (ztier_rb_ceil_walk_sound t_10_3_15_7 5 eq_refl). reflexivity.
Defined.

(** X2: on a search tree, the descent of [ztier_rb_floor] returns only keys
    of the tree that are [<= chunk], and returns NULL exactly when every key
    is [> chunk]. *)
Theorem ztier_rb_floor_walk_sound t chunk :
  is_bst t = true ->
  (forall x, ztier_rb_floor t chunk = Some x -> In x (elements t) /\ x <= chunk) /\
  (ztier_rb_floor t chunk = None <-> (forall y, In y (elements t) -> chunk < y)).
Proof.
  intros Hb. split.
  - intros x. apply floor_some.
  - apply floor_none, Hb.
Qed.

Lemma ztier_rb_floor_walk_sound_witness :
  ztier_rb_floor t_3_1_10_7_15 8 = Some 3 /\ In 3 (elements t_3_1_10_7_15) /\ 3 <= 8.
Proof.
  split; [reflexivity|].
  apply (ztier_rb_floor_walk_sound t_3_1_10_7_15 8 eq_refl). reflexivity.
Defined.

(** X3: [ztier_rb_contains] has no false positives for non-NULL chunks: if
    it answers true for a non-NULL [chunk], then [chunk] is a key of the
    tree (whatever the tree's shape). *)
Theorem ztier_rb_contains_walk_sound t chunk :
  chunk <> 0 -> ztier_rb_contains t chunk = true -> In chunk (elements t).
Proof.
  unfold ztier_rb_contains. intros Hc.
  destruct (ztier_rb_floor t chunk) as [f|] eqn:E.
  - intros Hf. apply Z.eqb_eq in Hf. subst f. apply (floor_some _ _ _ E).
  - intros H0. apply Z.eqb_eq in H0. contradiction.
Qed.

Lemma ztier_rb_contains_walk_sound_witness :
  ztier_rb_contains t_10_3_15_7 10 = true /\ In 10 (elements t_10_3_15_7).
Proof.
  split; [reflexivity|].
  apply (ztier_rb_contains_walk_sound t_10_3_15_7 10); [discriminate|reflexivity].
Defined.

(** X4: the descents stop too early on some rb-tree shapes, so the helpers
    are not exact.  In the tree built from the keys 10, 3, 15, 7,
    [ztier_rb_ceil(5)] returns 10 although 7 is a key in [5, 10); so
    [ztier_rb_move_range(from, to, 5, 8)] moves nothing and leaves 7 in
    [from], whatever [rb_erase] and the insertion do.  In the tree built
    from 3, 1, 10, 7, 15, [ztier_rb_floor(8)] returns 3 although 7 is a key
    in (3, 8], and [ztier_rb_contains(7)] is false although 7 is a key. *)
Theorem ztier_rb_walks_not_exact :
  (is_bst t_10_3_15_7 = true /\ In 7 (elements t_10_3_15_7) /\
   ztier_rb_ceil t_10_3_15_7 5 = Some 10 /\
   (forall erase insert fuel to,
      ztier_rb_move_range erase insert (S fuel) t_10_3_15_7 to 5 8 =
      Ok (t_10_3_15_7, to))) /\
  (is_bst t_3_1_10_7_15 = true /\ In 7 (elements t_3_1_10_7_15) /\
   ztier_rb_floor t_3_1_10_7_15 8 = Some 3 /\
   ztier_rb_contains t_3_1_10_7_15 7 = false).
Proof.
  split; (split; [reflexivity|]); (split; [cbn; tauto|]).
  - split; [reflexivity|]. intros erase insert fuel to. reflexivity.
  - split; reflexivity.
Qed.


Lemma insert_link_elems t k t' :
  ztier_rb_insert_link t k = Ok t' ->
  forall y, In y (elements t') <-> y = k \/ In y (elements t).
Proof.
  revert t'; induction t as [|l IHl c r IHr]; intros t' H y; cbn [ztier_rb_insert_link] in H.
  - injection H as <-. cbn. intuition.
  - destruct (k <? c).
    + destruct (ztier_rb_insert_link l k) as [l'| |] eqn:E; try discriminate.
      injection H as <-. rewrite !in_node, (IHl l' eq_refl). tauto.
    + destruct (c =? k); [discriminate|].
      destruct (ztier_rb_insert_link r k) as [r'| |] eqn:E; try discriminate.
      injection H as <-. rewrite !in_node, (IHr r' eq_refl). tauto.
Qed.

Lemma insert_link_not_hang t k : ztier_rb_insert_link t k <> Hang.
Proof.
  induction t as [|l IHl c r IHr]; cbn; [discriminate|].
  destruct (k <? c); [destruct (ztier_rb_insert_link l k); congruence|].
  destruct (c =? k); [discriminate|]. destruct (ztier_rb_insert_link r k); congruence.
Qed.

Lemma bst_node_intro l k r :
  is_bst l = true -> is_bst r = true ->
  (forall x, In x (elements l) -> x < k) -> (forall x, In x (elements r) -> k < x) ->
  is_bst (Node l k r) = true.
Proof.
  intros Hl Hr Hlk Hkr. cbn [is_bst]. rewrite Hl, Hr. cbn.
  apply andb_true_intro; split; apply forallb_forall; intros x Hx; apply Z.ltb_lt; auto.
Qed.

(** X5: on a search tree, the descent of [ztier_rb_insert] hits
    [BUG_ON(chunk == new_chunk)] exactly when the key is already in the
    tree; otherwise it links the key as a new leaf, and the tree stays a
    search tree holding the old keys and the new one.  So, unlike the
    ceiling and floor descents, this check is exact. *)
Theorem ztier_rb_insert_link_exact t k :
  is_bst t = true ->
  (ztier_rb_insert_link t k = Bug <-> In k (elements t)) /\
  (forall t', ztier_rb_insert_link t k = Ok t' ->
     is_bst t' = true /\ forall y, In y (elements t') <-> y = k \/ In y (elements t)).
Proof.
  induction t as [|l IHl c r IHr]; intros Hb.
  - split; [cbn; split; [discriminate|intros []]|].
    intros t' H. cbn in H. injection H as <-. split; [reflexivity|]. cbn. intuition.
  - pose proof Hb as Hb'. apply bst_node in Hb' as (Hl & Hr & Hlk & Hkr).
    destruct (IHl Hl) as [IHlb IHlo]. destruct (IHr Hr) as [IHrb IHro].
    cbn [ztier_rb_insert_link].
    destruct (Z.ltb_spec k c) as [Hkc|Hkc].
    + split.
      * rewrite in_node. destruct (ztier_rb_insert_link l k) as [l'| |] eqn:E.
        -- split; [discriminate|]. intros [H|[H|H]].
           ++ apply IHlb in H. congruence.
           ++ lia.
           ++ specialize (Hkr _ H). lia.
        -- split; [intros _; left; apply IHlb; reflexivity|reflexivity].
        -- exfalso. exact (insert_link_not_hang l k E).
      * intros t' H. destruct (ztier_rb_insert_link l k) as [l'| |] eqn:E; try discriminate.
        injection H as <-. destruct (IHlo l' eq_refl) as [Hbl' Hel'].
        split.
        -- apply bst_node_intro; auto. intros x Hx. apply Hel' in Hx as [->|Hx]; auto.
        -- intros y. rewrite !in_node, Hel'. tauto.
    + destruct (Z.eqb_spec c k) as [->|Hne].
      * split; [split; [intros _; apply in_node; auto|reflexivity]|discriminate].
      * split.
        -- rewrite in_node. destruct (ztier_rb_insert_link r k) as [r'| |] eqn:E.
           ++ split; [discriminate|]. intros [H|[H|H]].
              ** specialize (Hlk _ H). lia.
              ** congruence.
              ** apply IHrb in H. congruence.
           ++ split; [intros _; right; right; apply IHrb; reflexivity|reflexivity].
           ++ exfalso. exact (insert_link_not_hang r k E).
        -- intros t' H. destruct (ztier_rb_insert_link r k) as [r'| |] eqn:E; try discriminate.
           injection H as <-. destruct (IHro r' eq_refl) as [Hbr' Her'].
           split.
           ++ apply bst_node_intro; auto. intros x Hx. apply Her' in Hx as [->|Hx]; [lia|auto].
           ++ intros y. rewrite !in_node, Her'. tauto.
Qed.

Lemma ztier_rb_insert_link_exact_witness :
  (ztier_rb_insert_link t_10_3_15_7 7 = Bug <-> In 7 (elements t_10_3_15_7)) /\
  ztier_rb_insert_link t_10_3_15_7 7 = Bug.
Proof.
  assert (Hb : is_bst t_10_3_15_7 = true) by reflexivity.
  split; [exact (proj1 (ztier_rb_insert_link_exact t_10_3_15_7 7 Hb))|].
  apply (proj1 (ztier_rb_insert_link_exact t_10_3_15_7 7 Hb)). cbn. tauto.
Defined.

End RbWalkFacts.

(** ** Reclaim and shrink accounting *)

Lemma free_acct h s u s' :
  ztier_free h s = Ok (u, s') -> size s' = size s /\ log s' = log s.
Proof.
  intros H. apply ztier_free_ok in H. cbv zeta in H. destruct H as (_ & _ & _ & H).
  destruct (Z.testbit _ 63); destruct H as (t' & _ & ->); split; reflexivity.
Qed.

Lemma call_evict_acct h s r s' :
  call_evict h s = Ok (r, s') -> size s' = size s /\ log s' = log s ++ [EvEvict h].
Proof.
  unfold call_evict. intros H. simp_in H.
  destruct (ops s) as [[[f|]]|]; try discriminate. simp_in H.
  destruct (f h =? 0).
  - peel H. simp_in H. inv_ok H. apply free_acct in Hm as [-> ->]. cbn. auto.
  - inv_ok H. cbn. auto.
Qed.

Lemma evict_chunks_acct v ts offs s u s' :
  evict_chunks v ts offs s = Ok (u, s') ->
  size s' = size s /\ exists l, log s' = log s ++ l /\ forallb is_evict l = true.
Proof.
  revert s; induction offs as [|i offs IH]; intros s H; cbn in H.
  - inv_ok H. split; [reflexivity|]. exists []. rewrite app_nil_r. auto.
  - destruct (negb _).
    + simp_in H. case_bug H. peel H. apply call_evict_acct in Hm as [Hs Hl].
      destruct (negb (a =? 0)).
      * inv_ok H. split; [exact Hs|]. eexists; split; [exact Hl|reflexivity].
      * destruct (IH _ H) as [Hs' (l & Hl' & Hf)]. split; [congruence|].
        exists (EvEvict (v + i) :: l). rewrite Hl', Hl, <- app_assoc. auto.
    + simp_in H. case_bug H. exact (IH _ H).
Qed.

Lemma attempt_evict_acct pfn s u s' :
  ztier_attempt_evict_page_chunks pfn s = Ok (u, s') ->
  size s' = size s /\ exists l, log s' = log s ++ l /\ forallb is_evict l = true.
Proof.
  intros H. unfold ztier_attempt_evict_page_chunks in H. simp_in H.
  case_bug H. simp_in H. case_bug H. simp_in H. case_bug H.
  exact (evict_chunks_acct _ _ _ _ _ _ H).
Qed.

Lemma select_acct ct cp s r s' :
  ztier_reclaim_select_page ct cp s = Ok (r, s') -> size s' = size s /\ log s' = log s.
Proof.
  intros H. apply select_page_ok in H as [->|(l & ->)]; auto.
Qed.

Lemma quarantine_acct pfn ct s r s' :
  reclaim_quarantine pfn ct s = Ok (r, s') -> size s' = size s /\ log s' = log s.
Proof.
  intros H. apply reclaim_quarantine_ok in H. cbv zeta in H.
  destruct H as (_ & _ & _ & _ & f' & r' & _ & _ & ->). auto.
Qed.

Lemma settle_acct pfn rt ct s b s' :
  reclaim_settle pfn rt ct s = Ok (b, s') ->
  if b then PAGE_SIZE <= size s /\ size s' = size s - PAGE_SIZE /\
            log s' = log s ++ [EvPageFree pfn] /\ priv s' pfn = DEADBEEF
  else size s' = size s /\ log s' = log s.
Proof.
  intros H. apply reclaim_settle_ok in H. cbv zeta in H. destruct H as (_ & _ & H).
  destruct b.
  - destruct H as (r' & _ & Hp & ->). cbn. rewrite upd_same. auto.
  - destruct H as (_ & r' & f' & _ & _ & ->). auto.
Qed.

Lemma reclaim_loop_acct k ct cp s r s' :
  reclaim_loop k ct cp s = Ok (r, s') ->
  exists l, forallb is_evict l = true /\
   ((r = 0 /\ PAGE_SIZE <= size s /\ size s' = size s - PAGE_SIZE /\
     exists pfn, log s' = log s ++ l ++ [EvPageFree pfn] /\ priv s' pfn = DEADBEEF) \/
    (r = - EAGAIN /\ size s' = size s /\ log s' = log s ++ l)).
Proof.
  revert ct cp s; induction k as [|k IH]; intros ct cp s H; cbn in H.
  - inv_ok H. exists []. split; [reflexivity|]. right. rewrite app_nil_r. auto.
  - simp_in H. case_bug H. apply bind_ok in H. destruct H as (sel & s1 & H1 & H).
    apply select_acct in H1 as [S1 L1].
    destruct sel as [[[pfn|] ct'] cp'].
    + apply bind_ok in H. destruct H as (rt & s2 & H2 & H).
      apply quarantine_acct in H2 as [S2 L2].
      apply bind_ok in H. destruct H as (u & s3 & H3 & H).
      apply attempt_evict_acct in H3 as [S3 (l3 & L3 & E3)].
      apply bind_ok in H. destruct H as (done & s4 & Hm2 & H).
      apply settle_acct in Hm2. destruct done.
      * inv_ok H. destruct Hm2 as (Hp & S4 & L4 & P4).
        exists l3. split; [exact E3|]. left. split; [reflexivity|].
        rewrite S3, S2, S1 in *. split; [exact Hp|]. split; [exact S4|].
        exists pfn. split; [|exact P4]. rewrite L4, L3, L2, L1, app_assoc. reflexivity.
      * destruct Hm2 as [S4 L4]. destruct (IH _ _ _ H) as (l & El & Hr).
        exists (l3 ++ l). split; [rewrite forallb_app, E3, El; reflexivity|].
        rewrite S4, S3, S2, S1 in Hr. rewrite L4, L3, L2, L1 in Hr.
        destruct Hr as [(Hr & Hp & Hs & pf & Hl & Hpf)|(Hr & Hs & Hl)].
        -- left. split; [exact Hr|]. split; [exact Hp|]. split; [exact Hs|].
           exists pf. split; [|exact Hpf]. rewrite Hl, <- !app_assoc. reflexivity.
        -- right. split; [exact Hr|]. split; [exact Hs|]. rewrite Hl, <- !app_assoc. reflexivity.
    + inv_ok H. exists []. split; [reflexivity|]. right. rewrite app_nil_r. auto.
Qed.

Lemma reclaim_page_acct n s r s' :
  ztier_reclaim_page n s = Ok (r, s') ->
  exists l, forallb is_evict l = true /\
   ((r = 0 /\ PAGE_SIZE <= size s /\ size s' = size s - PAGE_SIZE /\
     exists pfn, log s' = log s ++ l ++ [EvPageFree pfn] /\ priv s' pfn = DEADBEEF) \/
    ((r = - EINVAL \/ r = - EAGAIN) /\ size s' = size s /\ log s' = log s ++ l)).
Proof.
  unfold ztier_reclaim_page. intros H. rewrite bind_get in H.
  destruct (_ || _ || _).
  - inv_ok H. exists []. split; [reflexivity|]. right. rewrite app_nil_r. auto.
  - apply reclaim_loop_acct in H as (l & El & [Hr|(Hr & Hs & Hl)]).
    + exists l. auto.
    + exists l. split; [exact El|]. right. auto.
Qed.

(** X6: a call of [ztier_reclaim_page] either frees exactly one page
    (returns 0, the pool shrinks by [PAGE_SIZE], the page's [ztier_private]
    is reset to [0xDEADBEEF], and one [__free_page] is the last thing it
    does after its evict callbacks), or frees nothing (returns [-EINVAL] or
    [-EAGAIN], the size is unchanged, and it only made evict callbacks). *)
Theorem ztier_reclaim_page_accounting n s r s' :
  ztier_reclaim_page n s = Ok (r, s') ->
  exists l, forallb is_evict l = true /\
   ((r = 0 /\ PAGE_SIZE <= size s /\ size s' = size s - PAGE_SIZE /\
     exists pfn, log s' = log s ++ l ++ [EvPageFree pfn] /\ priv s' pfn = DEADBEEF) \/
    ((r = - EINVAL \/ r = - EAGAIN) /\ size s' = size s /\ log s' = log s ++ l)).
Proof. exact (reclaim_page_acct n s r s'). Qed.

Lemma ztier_reclaim_page_accounting_witness :
  let s := pool_one_free evict_fail in
  exists s', ztier_reclaim_page 8 s = Ok (0, s') /\ size s' = size s - PAGE_SIZE.
Proof.
  cbv zeta.
  assert (T : match ztier_reclaim_page 8 (pool_one_free evict_fail) with
              | Ok (r, _) => r = 0 | _ => False end) by (vm_compute; reflexivity).
  destruct (ztier_reclaim_page 8 (pool_one_free evict_fail)) as [[r s']| |] eqn:E;
    [|contradiction|contradiction].
  subst r. exists s'. split; [reflexivity|].
  destruct (ztier_reclaim_page_accounting 8 _ 0 s' E) as (l & _ & [(_ & _ & Hs & _)|([Hr|Hr] & _)]).
  - exact Hs.
  - discriminate Hr.
  - discriminate Hr.
Defined.

Lemma page_frees_app l1 l2 : page_frees (l1 ++ l2) = page_frees l1 + page_frees l2.
Proof. unfold page_frees. rewrite filter_app, length_app. lia. Qed.

Lemma page_frees_evicts l : forallb is_evict l = true -> page_frees l = 0.
Proof.
  induction l as [|e l IH]; [reflexivity|]. cbn [forallb]. intros H.
  apply andb_prop in H as [He Hl]. unfold page_frees in *. cbn [filter].
  rewrite He. cbn [negb]. exact (IH Hl).
Qed.

Lemma shrink_loop_acct fuel pages total r0 s r t s' :
  total <= pages -> pages <= total + Z.of_nat fuel ->
  shrink_loop fuel pages total r0 s = Ok ((r, t), s') ->
  total <= t <= pages /\ size s' = size s - (t - total) * PAGE_SIZE /\
  (exists l, log s' = log s ++ l /\ page_frees l = t - total) /\
  ((t = pages /\ (t = total -> r = r0) /\ (total < t -> r = 0)) \/
   (t < pages /\ (r = - EINVAL \/ r = - EAGAIN))).
Proof.
  revert total r0 s; induction fuel as [|fuel IH]; intros total r0 s H0 H1 H; cbn in H.
  - inv_ok H. split; [lia|]. split; [lia|]. split.
    + exists []. rewrite app_nil_r. split; [reflexivity|]. unfold page_frees; cbn; lia.
    + left. split; [lia|]. split; [auto|intros; lia].
  - destruct (Z.ltb_spec total pages) as [Hlt|Hge].
    + apply bind_ok in H. destruct H as (r1 & s1 & H1' & H).
      apply reclaim_page_acct in H1' as (l & El & Hr).
      destruct (Z.ltb_spec r1 0) as [Hn|Hn].
      * inv_ok H. destruct Hr as [(-> & _)|(Hr & Hs & Hl)]; [lia|].
        split; [lia|]. split; [lia|]. split.
        -- exists l. split; [exact Hl|]. rewrite page_frees_evicts by exact El. lia.
        -- right. split; [lia|exact Hr].
      * destruct Hr as [(-> & Hp & Hs & pf & Hl & _)|([Hr|Hr] & _)];
          [|unfold EINVAL in Hr; lia|unfold EAGAIN in Hr; lia].
        rewrite Nat2Z.inj_succ in H1.
        destruct (IH (total + 1) 0 s1 ltac:(lia) ltac:(lia) H)
          as (Ht & Hs' & (l' & Hl' & Hf') & Hres).
        split; [lia|]. split; [rewrite Hs', Hs; lia|]. split.
        -- exists ((l ++ [EvPageFree pf]) ++ l'). rewrite Hl', Hl, !app_assoc.
           split; [reflexivity|]. rewrite !page_frees_app, page_frees_evicts by exact El.
           rewrite Hf'. change (page_frees [EvPageFree pf]) with 1. lia.
        -- destruct Hres as [(Htp & Heq & Hgt)|Hres]; [|right; exact Hres].
           left. split; [exact Htp|]. split; [lia|].
           intros _. destruct (Z.eq_dec t (total + 1)) as [->|Hne]; [apply Heq; reflexivity|].
           apply Hgt. lia.
    + inv_ok H. split; [lia|]. split; [lia|]. split.
      * exists []. rewrite app_nil_r. split; [reflexivity|]. unfold page_frees; cbn; lia.
      * left. split; [lia|]. split; [auto|intros; lia].
Qed.

(** X7: [ztier_zpool_shrink(pool, pages, &reclaimed)] reports in
    [reclaimed] exactly the number of pages it freed: [0 <= reclaimed <=
    pages], the pool shrinks by [reclaimed * PAGE_SIZE], and [reclaimed]
    [__free_page] calls are made.  It returns [-EINVAL] when [pages] is 0,
    0 when all [pages] pages were reclaimed, and otherwise the [-EINVAL] or
    [-EAGAIN] of the reclaim attempt that failed. *)
Theorem ztier_zpool_shrink_accounting pages s r reclaimed s' :
  0 <= pages ->
  ztier_zpool_shrink pages s = Ok ((r, reclaimed), s') ->
  0 <= reclaimed <= pages /\
  size s' = size s - reclaimed * PAGE_SIZE /\
  (exists l, log s' = log s ++ l /\ page_frees l = reclaimed) /\
  ((pages = 0 /\ r = - EINVAL) \/
   (0 < pages /\ reclaimed = pages /\ r = 0) \/
   (reclaimed < pages /\ (r = - EINVAL \/ r = - EAGAIN))).
Proof.
  intros Hp H. unfold ztier_zpool_shrink in H.
  apply shrink_loop_acct in H; [|lia|rewrite Z2Nat.id by exact Hp; lia].
  destruct H as (Ht & Hs & (l & Hl & Hf) & Hres).
  split; [lia|]. split; [rewrite Hs; lia|]. split.
  - exists l. split; [exact Hl|lia].
  - destruct Hres as [(Htp & Heq & Hgt)|Hres]; [|right; right; exact Hres].
    destruct (Z.eq_dec pages 0) as [->|Hne].
    + left. split; [reflexivity|]. apply Heq. lia.
    + right; left. split; [lia|]. split; [exact Htp|]. apply Hgt. lia.
Qed.

Lemma ztier_zpool_shrink_accounting_witness :
  let s := pool_one_free evict_fail in
  exists s', ztier_zpool_shrink 3 s = Ok ((- EINVAL, 1), s') /\ size s' = size s - PAGE_SIZE.
Proof.
  cbv zeta.
  assert (T : match ztier_zpool_shrink 3 (pool_one_free evict_fail) with
              | Ok ((r, t), _) => r = - EINVAL /\ t = 1 | _ => False end)
    by (vm_compute; split; reflexivity).
  destruct (ztier_zpool_shrink 3 (pool_one_free evict_fail)) as [[[r t] s']| |] eqn:E;
    [|contradiction|contradiction].
  destruct T as [-> ->]. exists s'. split; [reflexivity|].
  destruct (ztier_zpool_shrink_accounting 3 _ _ _ s' ltac:(lia) E) as (_ & Hs & _).
  rewrite Hs. lia.
Defined.

Lemma reclaim_tier0_empty n s r s' :
  used_pages s 0 = [] -> ztier_reclaim_page n s = Ok (r, s') -> s' = s /\ r < 0.
Proof.
  intros Hu H. unfold ztier_reclaim_page in H. rewrite bind_get in H.
  destruct (_ || _ || _); [inv_ok H; unfold EINVAL; split; [reflexivity|lia]|].
  destruct (Z.to_nat n) as [|k]; cbn [reclaim_loop] in H;
    [inv_ok H; unfold EAGAIN; split; [reflexivity|lia]|].
  simp_in H. change (NUM_TIERS <=? 0) with false in H. cbv iota in H.
  unfold ztier_reclaim_select_page in H. change (0 <? NUM_TIERS) with true in H.
  cbv iota in H. simp_in H. rewrite Hu in H. cbn [rev] in H.
  simp_in H. inv_ok H. unfold EAGAIN. split; [reflexivity|lia].
Qed.

(** X8: when tier 0 (2KB) has no page, [ztier_zpool_shrink] reclaims
    nothing, whatever the other tiers hold: it reports 0 pages reclaimed,
    returns a negative code and leaves the pool as it was. *)
Theorem ztier_zpool_shrink_tier0_empty pages s r reclaimed s' :
  used_pages s 0 = [] ->
  ztier_zpool_shrink pages s = Ok ((r, reclaimed), s') ->
  reclaimed = 0 /\ r < 0 /\ s' = s.
Proof.
  intros Hu H. unfold ztier_zpool_shrink in H.
  destruct (Z.to_nat pages) as [|k]; cbn [shrink_loop] in H.
  - inv_ok H. unfold EINVAL. split; [reflexivity|]. split; [lia|reflexivity].
  - destruct (0 <? pages).
    + apply bind_ok in H. destruct H as (r1 & s1 & H1 & H).
      apply reclaim_tier0_empty in H1 as [-> Hr1]; [|exact Hu].
      destruct (Z.ltb_spec r1 0) as [_|Hge]; [|lia].
      inv_ok H. split; [reflexivity|]. split; [exact Hr1|reflexivity].
    + inv_ok H. unfold EINVAL. split; [reflexivity|]. split; [lia|reflexivity].
Qed.

Lemma ztier_zpool_shrink_tier0_empty_witness :
  let s := pool_two_small_free evict_succeed in
  used_pages s 2 = [6; 5] /\
  exists r, ztier_zpool_shrink 2 s = Ok ((r, 0), s) /\ r < 0.
Proof.
  cbv zeta. split; [vm_compute; reflexivity|].
  assert (T : match ztier_zpool_shrink 2 (pool_two_small_free evict_succeed) with
              | Ok _ => True | _ => False end) by (vm_compute; exact I).
  destruct (ztier_zpool_shrink 2 (pool_two_small_free evict_succeed)) as [[[r t] s']| |] eqn:E;
    [|contradiction|contradiction].
  destruct (ztier_zpool_shrink_tier0_empty 2 (pool_two_small_free evict_succeed) r t s' ltac:(vm_compute; reflexivity) E)
    as (-> & Hr & ->).
  exists r. split; [reflexivity|exact Hr].
Defined.

(** ** Allocation accounting *)

Lemma inserts_frame tier raw offs s u s' :
  for_each offs (fun i => insert_free tier (chunk_struct (raw + i))) s = Ok (u, s') ->
  size s' = size s /\ used_pages s' = used_pages s /\ priv s' = priv s /\ log s' = log s.
Proof.
  revert s; induction offs as [|i offs IH]; intros s H; cbn in H.
  - inv_ok H. auto.
  - apply bind_ok in H. destruct H as (v & s1 & H1 & H).
    unfold insert_free in H1. simp_in H1.
    destruct (ztier_rb_insert _ _ _) as [t'| |]; simp_in H1; try discriminate.
    inv_ok H1. exact (IH _ H).
Qed.

Lemma init_page_acct pfn tier s u s' :
  ztier_init_page pfn tier s = Ok (u, s') ->
  priv s pfn = DEADBEEF /\ priv s' pfn = tier /\
  size s' = size s /\ log s' = log s /\
  used_pages s' = upd (used_pages s) tier (pfn :: used_pages s tier).
Proof.
  unfold ztier_init_page. intros H. simp_in H. case_bug H. simp_in H. case_bug H.
  simp_in H. case_bug H. simp_in H. unfold fill in H. simp_in H.
  apply inserts_frame in H as (Hs & Hu & Hp & Hl).
  apply negb_false_iff, Z.eqb_eq in E1.
  cbn [size used_pages priv log set_mem set_used_pages set_priv] in *.
  rewrite Hp, upd_same. auto.
Qed.

(** X9: [ztier_alloc] adds a page to the pool only when the free tree of
    the chosen tier is empty: then [alloc_page] returned a page [pfn] that
    was not a pool page ([ztier_private == 0xDEADBEEF]), the pool grows by
    [PAGE_SIZE], and [pfn] is tagged with the tier and put at the head of
    that tier's page list.  Otherwise the size and the page lists are
    unchanged.  No page is freed either way. *)
Theorem ztier_alloc_accounting sz gfp pg s r s' :
  ztier_alloc sz gfp pg s = Ok (r, s') ->
  log s' = log s /\
  ((size s' = size s /\ used_pages s' = used_pages s) \/
   (exists pfn tier,
      pg = Some pfn /\ choose_tier sz = Some tier /\ free_lists s tier = [] /\
      priv s pfn = DEADBEEF /\ priv s' pfn = tier /\
      size s' = size s + PAGE_SIZE /\
      used_pages s' = upd (used_pages s) tier (pfn :: used_pages s tier))).
Proof.
  intros H. unfold ztier_alloc in H.
  destruct (_ || _); [inv_ok H; auto|].
  destruct (_ <? _); [inv_ok H; auto|].
  destruct (choose_tier sz) as [tier|] eqn:Ec; [|discriminate].
  simp_in H. destruct (rb_first _) as [k|] eqn:Ek.
  - apply bind_ok in H. destruct H as (h & s1 & H1 & H).
    apply alloc_take_ok in H1 as [-> ->].
    unfold fill in H. simp_in H. inv_ok H. auto.
  - destruct pg as [pfn|]; [|inv_ok H; auto].
    apply bind_ok in H. destruct H as (h & s1 & H1 & H).
    unfold fill in H. simp_in H. inv_ok H.
    unfold alloc_grow in H1. apply bind_ok in H1. destruct H1 as (u & s2 & H2 & H1).
    apply init_page_acct in H2 as (Hd & Hp & Hs & Hl & Hu).
    simp_in H1. destruct (rb_first (free_lists (set_size _ s2) tier)) as [k|]; [|discriminate].
    apply alloc_take_ok in H1 as [_ ->].
    cbn [log size used_pages priv set_mem set_free_lists set_size].
    split; [exact Hl|]. right. exists pfn, tier.
    split; [reflexivity|]. split; [reflexivity|].
    split; [apply min_elt_none, Ek|]. split; [exact Hd|]. split; [exact Hp|].
    split; [rewrite Hs; reflexivity|exact Hu].
Qed.

Lemma ztier_alloc_accounting_witness :
  exists r s', ztier_alloc 2048 0 (Some 5) (boot_state (Some (mk_ops (Some evict_fail)))) = Ok (r, s') /\
    size s' = PAGE_SIZE /\ used_pages s' 0 = [5] /\
    log s' = [] /\
    ((size s' = 0 /\ used_pages s' = used_pages (boot_state (Some (mk_ops (Some evict_fail))))) \/
     (exists pfn tier,
        Some 5 = Some pfn /\ choose_tier 2048 = Some tier /\
        free_lists (boot_state (Some (mk_ops (Some evict_fail)))) tier = [] /\
        priv (boot_state (Some (mk_ops (Some evict_fail)))) pfn = DEADBEEF /\ priv s' pfn = tier /\
        size s' = 0 + PAGE_SIZE /\
        used_pages s' = upd (used_pages (boot_state (Some (mk_ops (Some evict_fail))))) tier
                            (pfn :: used_pages (boot_state (Some (mk_ops (Some evict_fail)))) tier))).
Proof.
  assert (T : match ztier_alloc 2048 0 (Some 5) (boot_state (Some (mk_ops (Some evict_fail)))) with
              | Ok (_, s') => size s' = PAGE_SIZE /\ used_pages s' 0 = [5]
              | _ => False end) by (vm_compute; split; reflexivity).
  destruct (ztier_alloc 2048 0 (Some 5) (boot_state (Some (mk_ops (Some evict_fail)))))
    as [[r s']| |] eqn:E; [|contradiction|contradiction].
  exists r, s'. split; [reflexivity|]. split; [apply T|]. split; [apply T|].
  exact (ztier_alloc_accounting _ _ _ _ _ _ E).
Defined.

(** ** Pool teardown *)

Lemma move_range_loop_null m fuel from st af :
  exists from', move_range_loop m fuel from None st af = Ok (from', None).
Proof.
  revert from; induction fuel as [|fuel IH]; intros from; cbn; [eauto|].
  destruct (ztier_rb_ceil from st); [|eauto].
  destruct (af <=? z); eauto.
Qed.

Lemma list_del_head p rest : ~ In p rest -> list_del p (p :: rest) = rest.
Proof.
  intros Hn. unfold list_del. cbn. rewrite Z.eqb_refl. cbn.
  induction rest as [|q r IH]; [reflexivity|]. cbn.
  destruct (Z.eqb_spec q p) as [->|Hq]; [exfalso; apply Hn; left; reflexivity|].
  cbn. f_equal. apply IH. intros Hi; apply Hn; right; exact Hi.
Qed.

Lemma free_tier_pages_run fuel i s :
  NoDup (used_pages s i) ->
  (forall p, In p (used_pages s i) -> p <> 0) ->
  PAGE_SIZE * Z.of_nat (length (used_pages s i)) <= size s ->
  (length (used_pages s i) < fuel)%nat ->
  exists s', free_tier_pages fuel i s = Ok (tt, s') /\
    (forall j, used_pages s' j = if j =? i then [] else used_pages s j) /\
    size s' = size s - PAGE_SIZE * Z.of_nat (length (used_pages s i)) /\
    log s' = log s ++ map EvPageFree (used_pages s i) /\
    under_reclaim s' = under_reclaim s /\
    (forall p, priv s' p = if existsb (Z.eqb p) (used_pages s i) then DEADBEEF else priv s p).
Proof.
  revert s; induction fuel as [|fuel IH]; intros s Hnd Hnz Hsz Hf; [lia|].
  cbn [free_tier_pages]. simp_goal.
  destruct (used_pages s i) as [|p rest] eqn:El.
  - exists s. split; [reflexivity|]. split.
    + intros j. destruct (Z.eqb_spec j i) as [->|]; [exact El|reflexivity].
    + cbn. split; [lia|]. split; [symmetry; apply app_nil_r|]. auto.
  - assert (Hp : p <> 0) by (apply Hnz; left; reflexivity).
    inversion Hnd as [|? ? Hpr Hnd']; subst.
    cbn [length] in Hsz, Hf. rewrite Nat2Z.inj_succ in Hsz.
    replace (page_address p =? 0) with false
      by (symmetry; apply Z.eqb_neq; unfold page_address, PAGE_SIZE; lia).
    simp_goal. unfold discard_free. simp_goal.
    destruct (move_range_loop_null (mem s) (S (length (free_lists s i))) (free_lists s i)
                (page_address p) (page_address p + PAGE_SIZE)) as (fr & Hmv).
    unfold ztier_rb_move_range. rewrite Hmv. simp_goal. cbn [fst].
    set (s2 := add_log (EvPageFree p)
                 (set_priv p DEADBEEF
                    (set_used_pages i (list_del p (used_pages (set_free_lists i fr s) i))
                       (set_free_lists i fr s)))).
    assert (Hs2 : size s2 = size s) by reflexivity.
    replace (size s2 <? PAGE_SIZE) with false
      by (symmetry; apply Z.ltb_ge; unfold PAGE_SIZE in *; lia).
    simp_goal.
    set (s3 := set_size (size s2 - PAGE_SIZE) s2).
    assert (Hu3 : used_pages s3 = upd (used_pages s) i rest).
    { subst s3 s2. cbn [used_pages set_size add_log set_priv set_used_pages set_free_lists].
      rewrite El, list_del_head by exact Hpr. reflexivity. }
    assert (Hi3 : used_pages s3 i = rest) by (rewrite Hu3; apply upd_same).
    assert (Hs3 : size s3 = size s - PAGE_SIZE) by reflexivity.
    destruct (IH s3) as (s' & Hrun & Hu' & Hs' & Hl' & Hr' & Hp');
      [rewrite Hi3; exact Hnd'
      |rewrite Hi3; intros q Hq; apply Hnz; right; exact Hq
      |rewrite Hi3, Hs3; unfold PAGE_SIZE in *; lia
      |rewrite Hi3; lia|].
    rewrite Hi3 in Hs', Hl', Hp'.
    exists s'. split; [exact Hrun|]. split; [|split; [|split; [|split]]].
    + intros j. rewrite Hu'. rewrite Hu3. unfold upd.
      destruct (j =? i); reflexivity.
    + rewrite Hs', Hs3. cbn [length]. rewrite Nat2Z.inj_succ. lia.
    + rewrite Hl'. cbn. rewrite <- app_assoc. reflexivity.
    + rewrite Hr'. reflexivity.
    + intros q. rewrite Hp'. cbn.
      destruct (Z.eqb_spec q p) as [->|Hq].
      * destruct (existsb _ rest); [reflexivity|]. apply upd_same.
      * destruct (existsb _ rest); [reflexivity|]. apply upd_other, Hq.
Qed.

Lemma existsb_in p l : In p l -> existsb (Z.eqb p) l = true.
Proof. intros H. apply existsb_exists. exists p. split; [exact H|apply Z.eqb_refl]. Qed.

(** X10: with nothing under reclaim, [ztier_destroy_pool] returns every
    page of the pool: tier by tier, in list order, it calls [__free_page]
    on each page, resets its [ztier_private] to [0xDEADBEEF] and takes
    [PAGE_SIZE] off the pool size, and it leaves all three page lists
    empty.  The preconditions are that no page is listed twice in a tier,
    none is frame 0 (its address would be NULL) and the size counts at
    least one [PAGE_SIZE] per page. *)
Theorem ztier_destroy_pool_frees_all s :
  under_reclaim s = [] ->
  (forall i, 0 <= i < NUM_TIERS ->
     NoDup (used_pages s i) /\ forall p, In p (used_pages s i) -> p <> 0) ->
  PAGE_SIZE * Z.of_nat (length (used_pages s 0 ++ used_pages s 1 ++ used_pages s 2)) <= size s ->
  exists s', ztier_destroy_pool s = Ok (tt, s') /\
    ztier_all_tiers_empty s' = true /\
    size s' = size s - PAGE_SIZE * Z.of_nat (length (used_pages s 0 ++ used_pages s 1 ++ used_pages s 2)) /\
    log s' = log s ++ map EvPageFree (used_pages s 0 ++ used_pages s 1 ++ used_pages s 2) /\
    (forall p, In p (used_pages s 0 ++ used_pages s 1 ++ used_pages s 2) -> priv s' p = DEADBEEF).
Proof.
  intros Hr Hok Hsz. rewrite !length_app, !Nat2Z.inj_add in Hsz.
  destruct (Hok 0) as [Hn0 Hz0]; [unfold NUM_TIERS; lia|].
  destruct (Hok 1) as [Hn1 Hz1]; [unfold NUM_TIERS; lia|].
  destruct (Hok 2) as [Hn2 Hz2]; [unfold NUM_TIERS; lia|].
  assert (Hpg : 0 < PAGE_SIZE) by (unfold PAGE_SIZE; lia).
  destruct (free_tier_pages_run (S (length (used_pages s 0))) 0 s) as
    (s1 & R1 & U1 & S1 & L1 & _ & P1); [exact Hn0|exact Hz0|nia|lia|].
  assert (E11 : used_pages s1 1 = used_pages s 1) by (rewrite U1; reflexivity).
  assert (E12 : used_pages s1 2 = used_pages s 2) by (rewrite U1; reflexivity).
  destruct (free_tier_pages_run (S (length (used_pages s1 1))) 1 s1) as
    (s2 & R2 & U2 & S2 & L2 & _ & P2);
    [rewrite E11; exact Hn1|rewrite E11; exact Hz1|rewrite E11, S1; nia|lia|].
  assert (E22 : used_pages s2 2 = used_pages s 2) by (rewrite U2, E12; reflexivity).
  destruct (free_tier_pages_run (S (length (used_pages s2 2))) 2 s2) as
    (s3 & R3 & U3 & S3 & L3 & _ & P3);
    [rewrite E22; exact Hn2|rewrite E22; exact Hz2|rewrite E22, S2, S1, E11; nia|lia|].
  exists s3. split; [|split; [|split; [|split]]].
  - unfold ztier_destroy_pool. simp_goal. rewrite Hr. simp_goal.
    unfold ztier_free_all. cbn [for_each]. simp_goal.
    rewrite (bind_ok_eq _ _ _ _ _ R1). simp_goal.
    rewrite (bind_ok_eq _ _ _ _ _ R2). simp_goal.
    rewrite (bind_ok_eq _ _ _ _ _ R3). reflexivity.
  - unfold ztier_all_tiers_empty. rewrite !U3, !U2, !U1. reflexivity.
  - rewrite S3, S2, S1, E22, E11, !length_app, !Nat2Z.inj_add. lia.
  - rewrite L3, L2, L1, E22, E11, !map_app, !app_assoc. reflexivity.
  - intros p Hp. rewrite P3, P2, P1, E22, E11.
    apply in_app_or in Hp as [Hp|Hp]; [|apply in_app_or in Hp as [Hp|Hp]].
    + rewrite (existsb_in p (used_pages s 0) Hp).
      destruct (existsb (Z.eqb p) (used_pages s 2)), (existsb (Z.eqb p) (used_pages s 1)); reflexivity.
    + rewrite (existsb_in p (used_pages s 1) Hp).
      destruct (existsb (Z.eqb p) (used_pages s 2)); reflexivity.
    + rewrite (existsb_in p (used_pages s 2) Hp). reflexivity.
Qed.

Lemma ztier_destroy_pool_frees_all_witness :
  under_reclaim (pool_two_small_free evict_succeed) = [] /\
  exists s', ztier_destroy_pool (pool_two_small_free evict_succeed) = Ok (tt, s') /\
    ztier_all_tiers_empty s' = true /\
    size s' = size (pool_two_small_free evict_succeed) - 2 * PAGE_SIZE /\
    log s' = log (pool_two_small_free evict_succeed) ++ [EvPageFree 6; EvPageFree 5].
Proof.
  assert (Hr : under_reclaim (pool_two_small_free evict_succeed) = []) by (vm_compute; reflexivity).
  assert (U0 : used_pages (pool_two_small_free evict_succeed) 0 = []) by (vm_compute; reflexivity).
  assert (U1 : used_pages (pool_two_small_free evict_succeed) 1 = []) by (vm_compute; reflexivity).
  assert (U2 : used_pages (pool_two_small_free evict_succeed) 2 = [6; 5]) by (vm_compute; reflexivity).
  assert (Hsz : size (pool_two_small_free evict_succeed) = 2 * PAGE_SIZE) by (vm_compute; reflexivity).
  split; [exact Hr|].
  destruct (ztier_destroy_pool_frees_all (pool_two_small_free evict_succeed)) as
    (s' & R & Ha & Hs & Hl & _).
  - exact Hr.
  - intros i Hi. unfold NUM_TIERS in Hi.
    assert (Hi3 : i = 0 \/ i = 1 \/ i = 2) by lia. destruct Hi3 as [ -> | [ -> | -> ] ].
    + rewrite U0. split; [constructor|intros p []].
    + rewrite U1. split; [constructor|intros p []].
    + rewrite U2. split.
      * constructor; [intros [H|[]]; discriminate|constructor; [intros []|constructor]].
      * intros p [<-|[<-|[]]]; discriminate.
  - rewrite U0, U1, U2, Hsz. cbn. lia.
  - exists s'. rewrite U0, U1, U2 in *. split; [exact R|]. split; [exact Ha|].
    split; [rewrite Hs; reflexivity|exact Hl].
Defined.
